(** * Moon phase page (script.js): phase model, icon, forecast and toggle

    A shallow embedding of [script.js].  JavaScript numbers are modelled by
    the real numbers they denote (type [R]): [Math.floor] is the integer
    part, [Math.cos] is [cos], and the decimal literals of the source are
    the decimals themselves.  A [Date] object is modelled by its time value,
    a whole number of milliseconds since the Unix epoch (type [Z]); the
    calendar algorithms behind [new Date(y, m, d)], [getFullYear],
    [getMonth] and [getDate] follow the ECMAScript definitions, with the
    host's time zone taken as a parameter.  Built-ins that format a number
    or a date as text ([Number::toString], [toFixed], [toLocaleDateString],
    [toLocaleString]) are parameters as well, and the values returned by
    [new Date()] and [Math.random()] are arguments of the functions that
    call them.  The document is a record of what the script reads and writes
    in it.  The phase arithmetic is given a second time on IEEE 754 binary64
    numbers, to evaluate it on given dates. *)

From Stdlib Require Import Reals ZArith Lia Lra List String Ascii Bool.
From Stdlib Require Import PrimFloat Uint63.
Import ListNotations.

Set Warnings "-inexact-float".

Open Scope R_scope.

(** ** Math utilities *)

Definition TAU : R := PI * 2.

(** [clamp] is declared by the script and used nowhere. *)
Definition clamp (v a b : R) : R := Rmin (Rmax v a) b.

(** [Math.floor]: the greatest integer not above [x]. *)
Definition Math_floor (x : R) : R := IZR (Int_part x).

Definition frac (x : R) : R := x - Math_floor x.

(** The comparisons of the source, as booleans. *)
Definition ltb (x y : R) : bool := if Rlt_dec x y then true else false.
Definition gtb (x y : R) : bool := ltb y x.
Definition geb (x y : R) : bool := if Rge_dec x y then true else false.

(** ** Dates *)

(** A [Date] object, never mutated by the script: its time value, in
    milliseconds since 1970-01-01T00:00:00Z.  Invalid dates are not
    modelled: every time value is taken to lie in the range that
    [TimeClip] leaves unchanged. *)
Record Date : Set := mkDate { getTime : Z }.

Section DateAlgorithms.
Local Open Scope Z_scope.

Definition msPerDay : Z := 86400000.
Definition msPerHour : Z := 3600000.
Definition msPerMinute : Z := 60000.
Definition msPerSecond : Z := 1000.

Definition Day (t : Z) : Z := t / msPerDay.
Definition TimeWithinDay (t : Z) : Z := t mod msPerDay.

Definition DaysInYear (y : Z) : Z :=
  if negb (y mod 4 =? 0) then 365
  else if negb (y mod 100 =? 0) then 366
  else if negb (y mod 400 =? 0) then 365
  else 366.

Definition DayFromYear (y : Z) : Z :=
  365 * (y - 1970) + (y - 1969) / 4 - (y - 1901) / 100 + (y - 1601) / 400.

Definition TimeFromYear (y : Z) : Z := msPerDay * DayFromYear y.

(** The largest year whose first instant is not after [t]: the mean year
    length gives an estimate that is off by at most one. *)
Definition YearFromTime (t : Z) : Z :=
  let d := Day t in
  let e := 1970 + (400 * d) / 146097 in
  if d <? DayFromYear e then e - 1
  else if DayFromYear (e + 1) <=? d then e + 1
  else e.

Definition InLeapYearOf (y : Z) : Z := if DaysInYear y =? 366 then 1 else 0.
Definition InLeapYear (t : Z) : Z := InLeapYearOf (YearFromTime t).

Definition DayWithinYear (t : Z) : Z := Day t - DayFromYear (YearFromTime t).

(** Day within the year on which month [m] (0 = January) starts. *)
Definition MonthStart (m leap : Z) : Z :=
  match m with
  | 0 => 0
  | 1 => 31
  | 2 => 59 + leap
  | 3 => 90 + leap
  | 4 => 120 + leap
  | 5 => 151 + leap
  | 6 => 181 + leap
  | 7 => 212 + leap
  | 8 => 243 + leap
  | 9 => 273 + leap
  | 10 => 304 + leap
  | _ => 334 + leap
  end.

Definition MonthFromTime (t : Z) : Z :=
  let d := DayWithinYear t in
  let leap := InLeapYear t in
  if d <? 31 then 0
  else if d <? 59 + leap then 1
  else if d <? 90 + leap then 2
  else if d <? 120 + leap then 3
  else if d <? 151 + leap then 4
  else if d <? 181 + leap then 5
  else if d <? 212 + leap then 6
  else if d <? 243 + leap then 7
  else if d <? 273 + leap then 8
  else if d <? 304 + leap then 9
  else if d <? 334 + leap then 10
  else 11.

Definition DateFromTime (t : Z) : Z :=
  DayWithinYear t - MonthStart (MonthFromTime t) (InLeapYear t) + 1.

Definition MakeTime (hour min sec ms : Z) : Z :=
  hour * msPerHour + min * msPerMinute + sec * msPerSecond + ms.

(** Day number of day [date] of month [month] of [year]; months and days
    outside their usual range carry over into the following (or preceding)
    years and months. *)
Definition MakeDay (year month date : Z) : Z :=
  let ym := year + month / 12 in
  let mn := month mod 12 in
  DayFromYear ym + MonthStart mn (InLeapYearOf ym) + date - 1.

Definition MakeDate (day time : Z) : Z := day * msPerDay + time.

End DateAlgorithms.

(** ** Phase model *)

Definition toJulian (date : Date) : R :=
  IZR (getTime date) / 86400000 + 2440587.5.

Record PhaseReading : Type := mkReading {
  phase : R;
  ageDays : R;
  illum : R
}.

Definition synodic : R := 29.530588853.

Definition moonPhase (date : Date) : PhaseReading :=
  let jd := toJulian date in
  let k := (jd - 2451550.1) / synodic in
  let p := frac k in
  let age := p * synodic in
  let illum := 0.5 * (1 - cos (TAU * p)) in
  {| phase := p; ageDays := age; illum := illum |}.

Definition phaseName (p : R) : string :=
  if ltb p 0.03 || gtb p 0.97 then "New Moon"%string
  else if ltb p 0.22 then "Waxing Crescent"%string
  else if ltb p 0.28 then "First Quarter"%string
  else if ltb p 0.47 then "Waxing Gibbous"%string
  else if ltb p 0.53 then "Full Moon"%string
  else if ltb p 0.72 then "Waning Gibbous"%string
  else if ltb p 0.78 then "Last Quarter"%string
  else "Waning Crescent"%string.

(** The eight names, in cycle order. *)
Definition phaseNames : list string :=
  [ "New Moon"; "Waxing Crescent"; "First Quarter"; "Waxing Gibbous";
    "Full Moon"; "Waning Gibbous"; "Last Quarter"; "Waning Crescent" ]%string.

(** ** The phase model in binary64 *)

(** The same arithmetic on IEEE 754 binary64 numbers, the numbers the
    script computes with, to evaluate it on given dates.  [Math.cos] has no
    counterpart among the primitive floats, so the lit fraction is left
    out. *)

(** A time value as a number: exact below 2^53. *)
Definition Z2float (z : Z) : float :=
  match z with
  | Z0 => 0%float
  | Zpos _ => of_uint63 (Uint63.of_Z z)
  | Zneg _ => (- of_uint63 (Uint63.of_Z (- z)))%float
  end.

(** [Math.floor]: below 2^52 in size, adding and taking away 2^52 rounds
    to a nearest integer, which is the floor or one above it; zeros, larger
    numbers, infinities and NaN are their own floor. *)
Definition Math_floor64 (x : float) : float :=
  if PrimFloat.ltb (PrimFloat.abs x) 0x1p52 && negb (PrimFloat.eqb x 0) then
    let r := if PrimFloat.ltb 0 x
             then ((x + 0x1p52) - 0x1p52)%float
             else ((x - 0x1p52) + 0x1p52)%float in
    if PrimFloat.ltb x r then (r - 1)%float else r
  else x.

Definition frac64 (x : float) : float := (x - Math_floor64 x)%float.

Definition toJulian64 (date : Date) : float :=
  (Z2float (getTime date) / 86400000 + 2440587.5)%float.

(** [moonPhase], its [phase] and [ageDays]. *)
Definition moonPhase64 (date : Date) : float * float :=
  let jd := toJulian64 date in
  let synodic := 29.530588853%float in
  let k := ((jd - 2451550.1) / synodic)%float in
  let p := frac64 k in
  let age := (p * synodic)%float in
  (p, age).

Definition phaseName64 (p : float) : string :=
  if PrimFloat.ltb p 0.03 || PrimFloat.ltb 0.97 p then "New Moon"%string
  else if PrimFloat.ltb p 0.22 then "Waxing Crescent"%string
  else if PrimFloat.ltb p 0.28 then "First Quarter"%string
  else if PrimFloat.ltb p 0.47 then "Waxing Gibbous"%string
  else if PrimFloat.ltb p 0.53 then "Full Moon"%string
  else if PrimFloat.ltb p 0.72 then "Waning Gibbous"%string
  else if PrimFloat.ltb p 0.78 then "Last Quarter"%string
  else "Waning Crescent"%string.

(** ** Strings *)

Local Open Scope string_scope.

Definition nl : string := String (ascii_of_nat 10) EmptyString.
Definition dq : string := String (ascii_of_nat 34) EmptyString.

(** An attribute value between double quotes. *)
Definition q (s : string) : string := dq ++ s ++ dq.

(** A template literal: its chunks and substitutions, left to right. *)
Definition join (parts : list string) : string :=
  fold_right append EmptyString parts.

(** [s.slice(n)] for [n >= 0]. *)
Fixpoint slice (n : nat) (s : string) : string :=
  match n, s with
  | O, _ => s
  | S n', EmptyString => EmptyString
  | S n', String _ s' => slice n' s'
  end.

(** ** The host: time zone and formatting built-ins *)

Section Host.

(** The host's time zone: [LocalTZA t true] is the offset of local time
    from UTC at the UTC instant [t], [LocalTZA t false] the offset to use
    for the local time [t]. *)
Variable LocalTZA : Z -> bool -> Z.

(** [Number::toString] (base 10, as in a template literal),
    [Number.prototype.toString(36)], [Number.prototype.toFixed],
    [Date.prototype.toLocaleDateString(undefined, options)] and
    [Date.prototype.toLocaleString()]. *)
Variable numToString : R -> string.
Variable toString36 : R -> string.
Variable toFixed : R -> nat -> string.
Variable toLocaleDateString : Date -> list (string * string) -> string.
Variable toLocaleString : Date -> string.

Definition LocalTime (t : Z) : Z := (t + LocalTZA t true)%Z.
Definition UTC (t : Z) : Z := (t - LocalTZA t false)%Z.

Definition getFullYear (d : Date) : Z := YearFromTime (LocalTime (getTime d)).
Definition getMonth (d : Date) : Z := MonthFromTime (LocalTime (getTime d)).
Definition getDate (d : Date) : Z := DateFromTime (LocalTime (getTime d)).

(** [new Date(year, month, date)]: a year from 0 to 99 means 1900 + year;
    hours, minutes, seconds and milliseconds are 0. *)
Definition newDate (year month date : Z) : Date :=
  let yr := if ((0 <=? year) && (year <=? 99))%Z then (1900 + year)%Z else year in
  let finalDate := MakeDate (MakeDay yr month date) (MakeTime 0 0 0 0) in
  mkDate (UTC finalDate).

(** ** Icon *)

(** The identifier of one icon, from the value [rnd] of [Math.random()]. *)
Definition iconId (rnd : R) : string := "m" ++ slice 2 (toString36 rnd).

Definition moonSVG (rnd : R) (p : R) (size : option R) : string :=
  let size := match size with Some s => s | None => 160 end in
  let r := size / 2 in
  let x := 2 * p - 1 in
  let absx := Rabs x in
  let dir := if geb x 0 then 1 else -1 in
  let scaleX := 1 - absx in
  let shift := dir * r * 0.65 in
  let id := iconId rnd in
  let S := numToString in
  join [
    nl;
    "  <svg viewBox="; q (join ["0 0 "; S size; " "; S size]);
      " width="; q (S size); " height="; q (S size);
      " class="; q "moonSVG"; " aria-label="; q "Moon icon"; ">"; nl;
    "    <defs>"; nl;
    "      <radialGradient id="; q (join ["g-"; id]);
      " cx="; q "35%"; " cy="; q "30%"; " r="; q "75%"; ">"; nl;
    "        <stop offset="; q "0%"; " stop-color="; q "#f8fbff"; "/>"; nl;
    "        <stop offset="; q "60%"; " stop-color="; q "#e6ebff"; "/>"; nl;
    "        <stop offset="; q "100%"; " stop-color="; q "#c7d2ff"; "/>"; nl;
    "      </radialGradient>"; nl;
    "      <filter id="; q (join ["shadow-"; id]);
      " x="; q "-50%"; " y="; q "-50%";
      " width="; q "200%"; " height="; q "200%"; ">"; nl;
    "        <feDropShadow dx="; q "0"; " dy="; q "2";
      " stdDeviation="; q "4"; " flood-color="; q "#000";
      " flood-opacity="; q "0.6"; "/>"; nl;
    "      </filter>"; nl;
    "      <clipPath id="; q (join ["clip-"; id]); ">"; nl;
    "        <circle cx="; q (S r); " cy="; q (S r); " r="; q (S r); " />"; nl;
    "      </clipPath>"; nl;
    "      <mask id="; q (join ["mask-"; id]); ">"; nl;
    "        <rect width="; q "100%"; " height="; q "100%";
      " fill="; q "black"; "/>"; nl;
    "        <g transform=";
      q (join ["translate("; S (r + shift); ", "; S r; ") scale(";
               S scaleX; ", 1)"]); ">"; nl;
    "          <circle cx="; q "0"; " cy="; q "0"; " r="; q (S r);
      " fill="; q "white"; " />"; nl;
    "        </g>"; nl;
    "      </mask>"; nl;
    "    </defs>"; nl;
    "    <circle cx="; q (S r); " cy="; q (S r); " r="; q (S r);
      " fill="; q "#0a0f22"; " stroke="; q "#1c2752";
      " stroke-width="; q "2";
      " filter="; q (join ["url(#shadow-"; id; ")"]); "/>"; nl;
    "    <g clip-path="; q (join ["url(#clip-"; id; ")"]);
      " mask="; q (join ["url(#mask-"; id; ")"]); ">"; nl;
    "      <circle cx="; q (S r); " cy="; q (S r); " r="; q (S r);
      " fill="; q (join ["url(#g-"; id; ")"]); "/>"; nl;
    "    </g>"; nl;
    "    <circle cx="; q (S r); " cy="; q (S r); " r="; q (S (r - 1.5));
      " fill="; q "none"; " stroke="; q "rgba(255,255,255,.06)";
      " stroke-width="; q "3"; "/>"; nl;
    "  </svg>" ].

(** ** Formatting *)

Definition fmtDate (d : Date) : string :=
  toLocaleDateString d
    [("weekday", "short"); ("year", "numeric"); ("month", "short");
     ("day", "numeric")].

Definition fmtShort (d : Date) : string :=
  toLocaleDateString d
    [("weekday", "short"); ("month", "short"); ("day", "numeric")].

Definition percent (n : R) : string := toFixed (n * 100) 1 ++ "%".

(** ** The page *)

(** A child of [#grid7]. *)
Record Card : Type := mkCard {
  className : string;
  innerHTML : string
}.

(** What the script reads and writes of the document: the text or markup
    of the elements it looks up by id, the children of [#grid7] and the
    inline [display] style of [#sevenPanel]. *)
Record Page : Type := mkPage {
  now_textContent : string;
  todayMoon_innerHTML : string;
  todayLabel_textContent : string;
  todayDate_textContent : string;
  todayIllum_textContent : string;
  todayAge_textContent : string;
  grid7_children : list Card;
  sevenPanel_display : string;
  toggle7_textContent : string
}.

(** [renderToday], with [now] the value of [new Date()] and [rnd] the
    value of the one [Math.random()] call it makes. *)
Definition renderToday (now : Date) (rnd : R) (pg : Page) : Page :=
  let r := moonPhase now in
  {| now_textContent := toLocaleString now;
     todayMoon_innerHTML := moonSVG rnd (phase r) (Some 160);
     todayLabel_textContent := phaseName (phase r);
     todayDate_textContent := fmtDate now;
     todayIllum_textContent := percent (illum r);
     todayAge_textContent := toFixed (ageDays r) 1 ++ " days";
     grid7_children := grid7_children pg;
     sevenPanel_display := sevenPanel_display pg;
     toggle7_textContent := toggle7_textContent pg |}.

Definition set_grid7 (cs : list Card) (pg : Page) : Page :=
  {| now_textContent := now_textContent pg;
     todayMoon_innerHTML := todayMoon_innerHTML pg;
     todayLabel_textContent := todayLabel_textContent pg;
     todayDate_textContent := todayDate_textContent pg;
     todayIllum_textContent := todayIllum_textContent pg;
     todayAge_textContent := todayAge_textContent pg;
     grid7_children := cs;
     sevenPanel_display := sevenPanel_display pg;
     toggle7_textContent := toggle7_textContent pg |}.

Definition appendChild (c : Card) (pg : Page) : Page :=
  set_grid7 (grid7_children pg ++ [c]) pg.

(** The date of the [i]-th forecast day (line 103). *)
Definition forecastDate (base : Date) (i : Z) : Date :=
  newDate (getFullYear base) (getMonth base) (getDate base + i)%Z.

(** The card built by one turn of the loop, for the day [d]. *)
Definition forecastCard (d : Date) (rnd : R) : Card :=
  let r := moonPhase d in
  {| className := "card";
     innerHTML :=
       join [ nl;
              "      "; moonSVG rnd (phase r) (Some 120); nl;
              "      <div class="; q "label"; ">"; phaseName (phase r);
                "</div>"; nl;
              "      <div class="; q "date"; ">"; fmtShort d; "</div>"; nl;
              "      <div class="; q "illum"; ">"; percent (illum r);
                " lit</div>"; nl;
              "    " ] |}.

(** [render7], with [base] the value of [new Date()] and [rand i] the
    value of the [Math.random()] call of turn [i]. *)
Definition render7 (base : Date) (rand : nat -> R) (pg : Page) : Page :=
  let pg := set_grid7 [] pg in
  fold_left
    (fun pg i =>
       let d := forecastDate base (Z.of_nat i) in
       appendChild (forecastCard d (rand i)) pg)
    (seq 1 7) pg.

(** The click handler of [#toggle7]. *)
Definition toggleClick (base : Date) (rand : nat -> R) (pg : Page) : Page :=
  let show := String.eqb (sevenPanel_display pg) "none" in
  let pg :=
    {| now_textContent := now_textContent pg;
       todayMoon_innerHTML := todayMoon_innerHTML pg;
       todayLabel_textContent := todayLabel_textContent pg;
       todayDate_textContent := todayDate_textContent pg;
       todayIllum_textContent := todayIllum_textContent pg;
       todayAge_textContent := todayAge_textContent pg;
       grid7_children := grid7_children pg;
       sevenPanel_display := if show then "block" else "none";
       toggle7_textContent :=
         if show then "▼ Hide Next 7 Days" else "▶ Next 7 Days" |} in
  if show then render7 base rand pg else pg.

(** The callback of [setInterval]. *)
Definition refresh (now : Date) (rnd : R) (base : Date) (rand : nat -> R)
    (pg : Page) : Page :=
  let pg := renderToday now rnd pg in
  if negb (String.eqb (sevenPanel_display pg) "none")
  then render7 base rand pg else pg.

(** What happens to the page after the script has loaded. *)
Inductive Event : Type :=
| Click (base : Date) (rand : nat -> R)
| Refresh (now : Date) (rnd : R) (base : Date) (rand : nat -> R).

Definition handle (e : Event) (pg : Page) : Page :=
  match e with
  | Click base rand => toggleClick base rand pg
  | Refresh now rnd base rand => refresh now rnd base rand pg
  end.

(** The pages the script can bring about from the document [doc] it is
    loaded in: the first [renderToday], then clicks and refreshes. *)
Inductive reachable (doc : Page) : Page -> Prop :=
| reach_load now rnd : reachable doc (renderToday now rnd doc)
| reach_event pg e : reachable doc pg -> reachable doc (handle e pg).

End Host.

Local Close Scope string_scope.

(** * Vocabulary of the properties *)

(** ** A date some days later *)

(** [ToIntegerOrInfinity]: a real number cut to its integer part, towards
    zero. *)
Definition ToIntegerOrInfinity (x : R) : Z :=
  if Rle_dec 0 x then Int_part x else (- Int_part (- x))%Z.

(** [new Date(value)]: time values are whole milliseconds. *)
Definition newDateOfValue (value : R) : Date :=
  mkDate (ToIntegerOrInfinity value).

(** [new Date(d.getTime() + days * 86400000)]: the date [days] days after
    [d]. *)
Definition plusDays (d : Date) (days : R) : Date :=
  newDateOfValue (IZR (getTime d) + days * 86400000).

(** Distance between two phases as positions on the cycle, where 0 and 1
    are the same position. *)
Definition cycleDist (p1 p2 : R) : R :=
  Rmin (Rabs (p1 - p2)) (1 - Rabs (p1 - p2)).

(** ** Markup with holes *)

(** A piece of markup: literal text, or a hole for the identifier. *)
Inductive piece : Type :=
| Lit (s : string)
| Ident.

(** The text of a piece, and of a list of pieces, once the holes hold
    [id]. *)
Definition pieceText (id : string) (c : piece) : string :=
  match c with
  | Lit s => s
  | Ident => id
  end.

Definition fill (id : string) (tpl : list piece) : string :=
  join (map (pieceText id) tpl).

(** Pieces between double quotes. *)
Definition Q (tpl : list piece) : list piece := [Lit dq] ++ tpl ++ [Lit dq].

(** The markup of an icon, with a hole wherever [moonSVG] writes its
    identifier; [S] is [Number::toString]. *)
Definition svgTemplate (S : R -> string) (p : R) (size : option R) : list piece :=
  let size := match size with Some s => s | None => 160 end in
  let r := size / 2 in
  let x := 2 * p - 1 in
  let dir := if geb x 0 then 1 else -1 in
  let scaleX := 1 - Rabs x in
  let shift := dir * r * 0.65 in
  let L s := [Lit s] in
  let N v := Q [Lit (S v)] in
  let A s := Q [Lit s] in
  List.concat [
    L nl;
    L "  <svg viewBox="; Q [Lit "0 0 "; Lit (S size); Lit " "; Lit (S size)];
      L " width="; N size; L " height="; N size;
      L " class="; A "moonSVG"; L " aria-label="; A "Moon icon"; L ">"; L nl;
    L "    <defs>"; L nl;
    L "      <radialGradient id="; Q [Lit "g-"; Ident];
      L " cx="; A "35%"; L " cy="; A "30%"; L " r="; A "75%"; L ">"; L nl;
    L "        <stop offset="; A "0%"; L " stop-color="; A "#f8fbff"; L "/>"; L nl;
    L "        <stop offset="; A "60%"; L " stop-color="; A "#e6ebff"; L "/>"; L nl;
    L "        <stop offset="; A "100%"; L " stop-color="; A "#c7d2ff"; L "/>"; L nl;
    L "      </radialGradient>"; L nl;
    L "      <filter id="; Q [Lit "shadow-"; Ident];
      L " x="; A "-50%"; L " y="; A "-50%";
      L " width="; A "200%"; L " height="; A "200%"; L ">"; L nl;
    L "        <feDropShadow dx="; A "0"; L " dy="; A "2";
      L " stdDeviation="; A "4"; L " flood-color="; A "#000";
      L " flood-opacity="; A "0.6"; L "/>"; L nl;
    L "      </filter>"; L nl;
    L "      <clipPath id="; Q [Lit "clip-"; Ident]; L ">"; L nl;
    L "        <circle cx="; N r; L " cy="; N r; L " r="; N r; L " />"; L nl;
    L "      </clipPath>"; L nl;
    L "      <mask id="; Q [Lit "mask-"; Ident]; L ">"; L nl;
    L "        <rect width="; A "100%"; L " height="; A "100%";
      L " fill="; A "black"; L "/>"; L nl;
    L "        <g transform=";
      Q [Lit "translate("; Lit (S (r + shift)); Lit ", "; Lit (S r);
         Lit ") scale("; Lit (S scaleX); Lit ", 1)"]; L ">"; L nl;
    L "          <circle cx="; A "0"; L " cy="; A "0"; L " r="; N r;
      L " fill="; A "white"; L " />"; L nl;
    L "        </g>"; L nl;
    L "      </mask>"; L nl;
    L "    </defs>"; L nl;
    L "    <circle cx="; N r; L " cy="; N r; L " r="; N r;
      L " fill="; A "#0a0f22"; L " stroke="; A "#1c2752";
      L " stroke-width="; A "2";
      L " filter="; Q [Lit "url(#shadow-"; Ident; Lit ")"]; L "/>"; L nl;
    L "    <g clip-path="; Q [Lit "url(#clip-"; Ident; Lit ")"];
      L " mask="; Q [Lit "url(#mask-"; Ident; Lit ")"]; L ">"; L nl;
    L "      <circle cx="; N r; L " cy="; N r; L " r="; N r;
      L " fill="; Q [Lit "url(#g-"; Ident; Lit ")"]; L "/>"; L nl;
    L "    </g>"; L nl;
    L "    <circle cx="; N r; L " cy="; N r; L " r="; N (r - 1.5);
      L " fill="; A "none"; L " stroke="; A "rgba(255,255,255,.06)";
      L " stroke-width="; A "3"; L "/>"; L nl;
    L "  </svg>" ]%string.

(** ** What [renderToday] writes *)

(** The text and markup of the six elements [renderToday] writes. *)
Definition todayFields (pg : Page) : list string :=
  [ now_textContent pg; todayMoon_innerHTML pg; todayLabel_textContent pg;
    todayDate_textContent pg; todayIllum_textContent pg;
    todayAge_textContent pg ].

(** ** The two states of the forecast panel *)

Local Open Scope string_scope.

Definition collapsed (display text : string) : Prop :=
  display = "none" /\ text = "▶ Next 7 Days".

Definition expanded (display text : string) : Prop :=
  display = "block" /\ text = "▼ Hide Next 7 Days".

Local Close Scope string_scope.

(** What the script keeps of the grid, in a document [doc] that starts
    collapsed: a collapsed panel holds what the document held, or 7 cards;
    an expanded one 7 cards. *)
Definition gridInvariant (doc pg : Page) : Prop :=
  (collapsed (sevenPanel_display pg) (toggle7_textContent pg) /\
   (grid7_children pg = grid7_children doc \/
    List.length (grid7_children pg) = 7%nat)) \/
  (expanded (sevenPanel_display pg) (toggle7_textContent pg) /\
   List.length (grid7_children pg) = 7%nat).

(** ** The order of the names *)

(** The place of a name in the cycle, 0 for New Moon to 7 for Waning
    Crescent; 8 for any other text. *)
Fixpoint indexIn (names : list string) (n : string) : nat :=
  match names with
  | [] => O
  | m :: rest => if String.eqb m n then O else S (indexIn rest n)
  end.

Definition nameIndex (n : string) : nat := indexIn phaseNames n.

(** ** Sample dates, hosts and documents *)

(** The instant whose Julian Day number is 2451550.1 (2000-01-06 14:24
    UTC), and the instant 312.5 synodic months later. *)
Definition refNewMoon : Date := mkDate 947168640000.
Definition aFullMoon : Date := mkDate 1744494539031.

(** One day after and one day before the reference new moon. *)
Definition dayAfterNewMoon : Date := mkDate (947168640000 + 86400000).
Definition dayBeforeNewMoon : Date := mkDate (947168640000 - 86400000).

(** Five days, 7.4 days and ten days after the reference new moon. *)
Definition fiveDaysAfter : Date := mkDate (947168640000 + 5 * 86400000).
Definition aFirstQuarter : Date := mkDate (947168640000 + 639360000).
Definition tenDaysAfter : Date := mkDate (947168640000 + 10 * 86400000).

(** A time zone at a fixed offset from UTC, in milliseconds. *)
Definition fixedZone (offset : Z) : Z -> bool -> Z := fun _ _ => offset.

(** Central European time around 2025-03-30: one hour ahead of UTC until
    01:00 UTC (02:00 on the local clock), two hours ahead from then on. *)
Definition springForward2025 : Z -> bool -> Z :=
  fun t isUTC =>
    if isUTC
    then (if t <? 1743296400000 then 3600000 else 7200000)%Z
    else (if t <? 1743296400000 + 3600000 then 3600000 else 7200000)%Z.

(** Egyptian time around 2024-04-26: two hours ahead of UTC until 22:00
    UTC of the 25th, midnight on the local clock, which is then put forward
    to 01:00: three hours ahead from then on.  The local times of the hour
    that is skipped are read with the offset of before the change. *)
Definition cairo2024 : Z -> bool -> Z :=
  fun t isUTC =>
    if isUTC
    then (if t <? 1714082400000 then 7200000 else 10800000)%Z
    else (if t <? 1714082400000 + 10800000 then 7200000 else 10800000)%Z.

(** A [toString(36)] with two values, one for each half of [[0, 1)]. *)
Definition twoTexts36 : R -> string :=
  fun r => if ltb r 0.5 then "0.4fzyo82mvyr"%string else "0.q1w2e3r4t5y"%string.

(** The [toString(36)] of 0, the least value of [Math.random()]. *)
Definition zeroText36 : R -> string := fun _ => "0"%string.

(** Formatting built-ins that write nothing. *)
Definition noNumber : R -> string := fun _ => EmptyString.
Definition noFixed : R -> nat -> string := fun _ _ => EmptyString.
Definition noDate : Date -> string := fun _ => EmptyString.
Definition noLocaleDate : Date -> list (string * string) -> string :=
  fun _ _ => EmptyString.

(** A document whose panel is hidden by its inline style and whose toggle
    carries the caption to expand. *)
Definition collapsedDoc : Page :=
  {| now_textContent := EmptyString;
     todayMoon_innerHTML := EmptyString;
     todayLabel_textContent := EmptyString;
     todayDate_textContent := EmptyString;
     todayIllum_textContent := EmptyString;
     todayAge_textContent := EmptyString;
     grid7_children := [];
     sevenPanel_display := "none";
     toggle7_textContent := "▶ Next 7 Days" |}.

(** A document whose panel has no inline [display]. *)
Definition unstyledDoc : Page :=
  {| now_textContent := EmptyString;
     todayMoon_innerHTML := EmptyString;
     todayLabel_textContent := EmptyString;
     todayDate_textContent := EmptyString;
     todayIllum_textContent := EmptyString;
     todayAge_textContent := EmptyString;
     grid7_children := [];
     sevenPanel_display := EmptyString;
     toggle7_textContent := "Next 7 Days" |}.

(** * Properties *)

(** ** Comparisons and the integer part *)

Lemma Math_floor_bounds (x : R) : Math_floor x <= x < Math_floor x + 1.
Proof.
  unfold Math_floor. destruct (base_Int_part x) as [Hle Hgt]. lra.
Qed.

Lemma frac_range (x : R) : 0 <= frac x < 1.
Proof. unfold frac. pose proof (Math_floor_bounds x). lra. Qed.

(** The integer part of a real lying in [[z, z+1)] is [z]. *)
Lemma Math_floor_eq (x : R) (z : Z) : IZR z <= x < IZR z + 1 -> Math_floor x = IZR z.
Proof.
  intros [Hlo Hhi]. unfold Math_floor. f_equal. symmetry.
  apply Int_part_spec. lra.
Qed.

Lemma frac_eq (x : R) (z : Z) : IZR z <= x < IZR z + 1 -> frac x = x - IZR z.
Proof. intros H. unfold frac. now rewrite (Math_floor_eq x z H). Qed.

Lemma frac_add_Z (x : R) (n : Z) : frac (x + IZR n) = frac x.
Proof.
  pose proof (Math_floor_bounds x) as Hx.
  unfold frac at 2. unfold Math_floor in *.
  rewrite (frac_eq (x + IZR n) (Int_part x + n)).
  - rewrite plus_IZR. lra.
  - rewrite plus_IZR. lra.
Qed.

(** ** The phase model *)

Lemma synodic_pos : 0 < synodic.
Proof. unfold synodic. lra. Qed.

(** The cycle count [k] of [moonPhase]. *)
Lemma phase_eq (d : Date) :
  phase (moonPhase d) = frac ((toJulian d - 2451550.1) / synodic).
Proof. reflexivity. Qed.

(** The phase of a date whose cycle count has a known integer part. *)
Lemma phase_at (d : Date) (n : Z) (k : R) :
  k = (toJulian d - 2451550.1) / synodic ->
  IZR n <= k < IZR n + 1 ->
  phase (moonPhase d) = k - IZR n.
Proof. intros -> H. rewrite phase_eq. now apply frac_eq. Qed.

Lemma toJulian_refNewMoon : toJulian refNewMoon = 2451550.1.
Proof. unfold toJulian, refNewMoon; simpl. lra. Qed.

Lemma phase_refNewMoon : phase (moonPhase refNewMoon) = 0.
Proof.
  rewrite (phase_at refNewMoon 0 0); [lra | | lra].
  rewrite toJulian_refNewMoon. unfold synodic. lra.
Qed.

Lemma phase_aFullMoon : phase (moonPhase aFullMoon) = 1 / 2.
Proof.
  rewrite (phase_at aFullMoon 312 (625 / 2)); [lra | | lra].
  unfold toJulian, aFullMoon, synodic; simpl. lra.
Qed.

Lemma phase_range (d : Date) : 0 <= phase (moonPhase d) < 1.
Proof. rewrite phase_eq. apply frac_range. Qed.

(** C2: for every date, also one before the reference new moon (a negative
    cycle count), the phase of [moonPhase] lies in [[0, 1)]: it is the
    cycle count minus the greatest integer not above it, so a negative
    count is carried forward to the next whole cycle, not cut towards 0. *)
Theorem moonPhase_phase_range (d : Date) :
  0 <= phase (moonPhase d) < 1 /\
  exists n : Z,
    IZR n <= (toJulian d - 2451550.1) / synodic /\
    phase (moonPhase d) = (toJulian d - 2451550.1) / synodic - IZR n.
Proof.
  split.
  - apply phase_range.
  - exists (Int_part ((toJulian d - 2451550.1) / synodic)). split.
    + apply Math_floor_bounds.
    + reflexivity.
Qed.

(** A date before the reference new moon: the Unix epoch, 371.23 cycles
    before it, has phase 0.77 and not -0.23. *)
Lemma phase_epoch :
  (toJulian (mkDate 0) - 2451550.1) / synodic < 0 /\
  0.77 < phase (moonPhase (mkDate 0)) < 0.78.
Proof.
  assert (Hk : -372 <= (toJulian (mkDate 0) - 2451550.1) / synodic < -372 + 1)
    by (unfold toJulian, synodic; simpl; lra).
  split; [lra|].
  rewrite (phase_at (mkDate 0) (-372) _ eq_refl Hk).
  unfold toJulian, synodic; simpl. lra.
Qed.

(** C9: the age is the phase times the synodic month, so it lies in
    [[0, synodic)]; and going back from the date by the age lands on the
    reference new moon shifted by a whole number of synodic months, the
    last new moon of the model that is not after the date. *)
Theorem moonPhase_ageDays (d : Date) :
  synodic = 29.530588853 /\
  ageDays (moonPhase d) = phase (moonPhase d) * synodic /\
  0 <= ageDays (moonPhase d) < synodic /\
  exists n : Z, toJulian d - ageDays (moonPhase d) = 2451550.1 + IZR n * synodic.
Proof.
  pose proof synodic_pos as Hs.
  destruct (phase_range d) as [H0 H1].
  split; [reflexivity|]. split; [reflexivity|]. split.
  - change (ageDays (moonPhase d)) with (phase (moonPhase d) * synodic).
    split; [apply Rmult_le_pos; lra|].
    rewrite <- (Rmult_1_l synodic) at 2. apply Rmult_lt_compat_r; lra.
  - exists (Int_part ((toJulian d - 2451550.1) / synodic)).
    change (ageDays (moonPhase d)) with (phase (moonPhase d) * synodic).
    rewrite phase_eq. unfold frac, Math_floor. field. lra.
Qed.

(** C3: the lit fraction is 0.5 (1 - cos (2 pi phase)); it lies in
    [[0, 1]], is 0 at phase 0 and 1 at phase 1/2. *)
Theorem moonPhase_illum (d : Date) :
  illum (moonPhase d) = 0.5 * (1 - cos (2 * PI * phase (moonPhase d))) /\
  0 <= illum (moonPhase d) <= 1 /\
  (phase (moonPhase d) = 0 -> illum (moonPhase d) = 0) /\
  (phase (moonPhase d) = 0.5 -> illum (moonPhase d) = 1).
Proof.
  assert (E : illum (moonPhase d) = 0.5 * (1 - cos (2 * PI * phase (moonPhase d)))).
  { change (illum (moonPhase d))
      with (0.5 * (1 - cos (TAU * phase (moonPhase d)))).
    unfold TAU. now rewrite (Rmult_comm PI 2). }
  split; [exact E|]. rewrite E.
  pose proof (COS_bound (2 * PI * phase (moonPhase d))) as [Hlo Hhi].
  split; [lra|]. split; intros ->.
  - rewrite Rmult_0_r, cos_0. lra.
  - replace (2 * PI * 0.5) with PI by lra. rewrite cos_PI. lra.
Qed.

Lemma moonPhase_illum_witness :
  illum (moonPhase refNewMoon) = 0 /\ illum (moonPhase aFullMoon) = 1.
Proof.
  split.
  - apply (moonPhase_illum refNewMoon). exact phase_refNewMoon.
  - apply (moonPhase_illum aFullMoon). rewrite phase_aFullMoon. lra.
Defined.

(** ** The names *)

(** Below 0.03 the name is New Moon. *)
Lemma phaseName_low (p : R) : p < 0.03 -> phaseName p = "New Moon"%string.
Proof.
  intros H. unfold phaseName, ltb.
  destruct (Rlt_dec p 0.03); [reflexivity|contradiction].
Qed.

(** C1: [phaseName] gives every real number one of the eight names, the
    names are distinct, and each name is given exactly on its bucket: below
    0.03 or above 0.97 New Moon, then from each bound (included) to the next
    (excluded) 0.03, 0.22, 0.28, 0.47, 0.53, 0.72, 0.78, and Waning Crescent
    from 0.78 to 0.97, both included. *)
Theorem phaseName_buckets (p : R) :
  In (phaseName p) phaseNames /\ NoDup phaseNames /\
  (phaseName p = "New Moon"%string <-> p < 0.03 \/ p > 0.97) /\
  (phaseName p = "Waxing Crescent"%string <-> 0.03 <= p < 0.22) /\
  (phaseName p = "First Quarter"%string <-> 0.22 <= p < 0.28) /\
  (phaseName p = "Waxing Gibbous"%string <-> 0.28 <= p < 0.47) /\
  (phaseName p = "Full Moon"%string <-> 0.47 <= p < 0.53) /\
  (phaseName p = "Waning Gibbous"%string <-> 0.53 <= p < 0.72) /\
  (phaseName p = "Last Quarter"%string <-> 0.72 <= p < 0.78) /\
  (phaseName p = "Waning Crescent"%string <-> 0.78 <= p <= 0.97).
Proof.
  assert (ND : NoDup phaseNames).
  { unfold phaseNames.
    repeat (constructor; [simpl; intuition discriminate|]). constructor. }
  unfold phaseName, gtb, ltb.
  repeat match goal with
         | |- context [Rlt_dec ?a ?b] => destruct (Rlt_dec a b); simpl
         end;
    (split; [unfold phaseNames; simpl; tauto|]);
    (split; [exact ND|]);
    repeat split; intros; try discriminate; try lra.
Qed.

(** C5: at the instant whose Julian Day number is 2451550.1 the phase is 0
    and its name is New Moon; at 2000-01-06 18:14 UTC, 3 h 50 min later, the
    phase is below 0.006 and its name is New Moon as well. *)
Theorem moonPhase_reference_epoch :
  toJulian refNewMoon = 2451550.1 /\
  phase (moonPhase refNewMoon) = 0 /\
  phaseName (phase (moonPhase refNewMoon)) = "New Moon"%string /\
  let d := mkDate (MakeDate (MakeDay 2000 0 6) (MakeTime 18 14 0 0)) in
  0 <= phase (moonPhase d) < 0.006 /\
  phaseName (phase (moonPhase d)) = "New Moon"%string.
Proof.
  split; [exact toJulian_refNewMoon|].
  split; [exact phase_refNewMoon|].
  split.
  { apply phaseName_low. rewrite phase_refNewMoon. lra. }
  intros d.
  assert (Hd : d = mkDate 947182440000) by (vm_compute; reflexivity).
  assert (Hp : 0 <= phase (moonPhase d) < 0.006).
  { rewrite Hd.
    rewrite (phase_at (mkDate 947182440000) 0 _ eq_refl).
    - unfold toJulian, synodic; simpl. lra.
    - unfold toJulian, synodic; simpl. lra. }
  split; [exact Hp|].
  apply phaseName_low. lra.
Qed.

(** ** Periodicity *)

Lemma ToIntegerOrInfinity_near (x : R) :
  Rabs (IZR (ToIntegerOrInfinity x) - x) < 1.
Proof.
  unfold ToIntegerOrInfinity. destruct (Rle_dec 0 x).
  - pose proof (Math_floor_bounds x) as H. unfold Math_floor in H.
    apply Rabs_def1; lra.
  - pose proof (Math_floor_bounds (- x)) as H. unfold Math_floor in H.
    rewrite opp_IZR. apply Rabs_def1; lra.
Qed.

Lemma ToIntegerOrInfinity_eq (x : R) (z : Z) :
  0 <= x -> IZR z <= x < IZR z + 1 -> ToIntegerOrInfinity x = z.
Proof.
  intros Hx Hz. unfold ToIntegerOrInfinity.
  destruct (Rle_dec 0 x); [|contradiction].
  symmetry. apply Int_part_spec. lra.
Qed.

(** Moving a real by less than 1 moves its fractional part by as much,
    on the cycle. *)
Lemma frac_near (x e : R) :
  Rabs e < 1 -> cycleDist (frac (x + e)) (frac x) <= Rabs e.
Proof.
  intros He. apply Rabs_def2 in He.
  pose proof (Math_floor_bounds x) as Hx. unfold Math_floor in Hx.
  set (n := Int_part x) in *.
  assert (Hf : frac x = x - IZR n) by reflexivity.
  unfold cycleDist. rewrite Hf.
  destruct (Rlt_dec (x + e) (IZR n)) as [Hlo|Hlo].
  - rewrite (frac_eq (x + e) (n - 1)) by (rewrite minus_IZR; lra).
    rewrite minus_IZR.
    replace (x + e - (IZR n - 1) - (x - IZR n)) with (1 + e) by lra.
    rewrite (Rabs_pos_eq (1 + e)) by lra.
    rewrite (Rabs_left e) by lra.
    eapply Rle_trans; [apply Rmin_r|]. lra.
  - destruct (Rlt_dec (x + e) (IZR n + 1)) as [Hmid|Hhi].
    + rewrite (frac_eq (x + e) n) by lra.
      replace (x + e - IZR n - (x - IZR n)) with e by lra.
      apply Rmin_l.
    + rewrite (frac_eq (x + e) (n + 1)) by (rewrite plus_IZR; lra).
      rewrite plus_IZR.
      replace (x + e - (IZR n + 1) - (x - IZR n)) with (e - 1) by lra.
      rewrite (Rabs_left (e - 1)) by lra.
      rewrite (Rabs_pos_eq e) by lra.
      eapply Rle_trans; [apply Rmin_r|]. lra.
Qed.

(** C4, as amended: a date and the date one synodic month later (a whole
    number of milliseconds: the 0.8992 ms of the period are cut) have phases
    less than 1e-9 apart as positions on the cycle, that is either less than
    1e-9 apart or more than 1 - 1e-9 apart. *)
Theorem moonPhase_periodic (d : Date) :
  synodic = 29.530588853 /\
  cycleDist (phase (moonPhase (plusDays d synodic))) (phase (moonPhase d))
    < 0.000000001.
Proof.
  split; [reflexivity|].
  rewrite !phase_eq.
  set (k := (toJulian d - 2451550.1) / synodic).
  set (t' := ToIntegerOrInfinity (IZR (getTime d) + synodic * 86400000)).
  pose proof (ToIntegerOrInfinity_near (IZR (getTime d) + synodic * 86400000)) as Hn.
  fold t' in Hn. apply Rabs_def2 in Hn.
  set (e := (IZR t' - (IZR (getTime d) + synodic * 86400000)) / (synodic * 86400000)).
  assert (He : Rabs e < 0.000000001).
  { unfold e, synodic in *. apply Rabs_def1; lra. }
  assert (Hk : (toJulian (plusDays d synodic) - 2451550.1) / synodic = k + e + IZR 1).
  { unfold k, e, toJulian, plusDays, newDateOfValue; simpl. fold t'.
    unfold synodic. lra. }
  rewrite Hk, frac_add_Z.
  eapply Rle_lt_trans; [apply frac_near; lra|exact He].
Qed.

(** C4 as it is stated fails at the reference new moon: its phase is 0,
    that of the date one synodic month later is above 0.999. *)
Lemma moonPhase_periodic_counterexample :
  phase (moonPhase refNewMoon) = 0 /\
  plusDays refNewMoon synodic = mkDate 949720082876 /\
  phase (moonPhase (plusDays refNewMoon synodic)) > 0.999 /\
  ~ Rabs (phase (moonPhase (plusDays refNewMoon synodic))
          - phase (moonPhase refNewMoon)) < 0.999.
Proof.
  assert (Hd : plusDays refNewMoon synodic = mkDate 949720082876).
  { unfold plusDays, newDateOfValue, refNewMoon, synodic; simpl. f_equal.
    apply ToIntegerOrInfinity_eq; lra. }
  assert (Hp : phase (moonPhase (plusDays refNewMoon synodic)) > 0.999).
  { rewrite Hd. rewrite (phase_at (mkDate 949720082876) 0 _ eq_refl).
    - unfold toJulian, synodic; simpl. lra.
    - unfold toJulian, synodic; simpl. lra. }
  split; [exact phase_refNewMoon|]. split; [exact Hd|]. split; [exact Hp|].
  rewrite phase_refNewMoon, Rminus_0_r. intros H. apply Rabs_def2 in H. lra.
Qed.

(** ** The calendar *)

Section Calendar.
Local Open Scope Z_scope.

Ltac div_lia := Z.div_mod_to_equations; lia.

Lemma DayFromYear_succ (y : Z) : DayFromYear (y + 1) = DayFromYear y + DaysInYear y.
Proof.
  unfold DayFromYear, DaysInYear.
  destruct (Z.eqb_spec (y mod 4) 0), (Z.eqb_spec (y mod 100) 0),
    (Z.eqb_spec (y mod 400) 0); cbn [negb]; div_lia.
Qed.

Lemma DaysInYear_range (y : Z) : DaysInYear y = 365 \/ DaysInYear y = 366.
Proof.
  unfold DaysInYear.
  destruct (y mod 4 =? 0), (y mod 100 =? 0), (y mod 400 =? 0); simpl; auto.
Qed.

Lemma DayFromYear_mono (y1 y2 : Z) : y1 <= y2 -> DayFromYear y1 <= DayFromYear y2.
Proof. unfold DayFromYear. intros H. div_lia. Qed.

(** [YearFromTime] is the year of the ECMAScript definition: the largest
    one that starts at or before [t]. *)
Lemma YearFromTime_days (t : Z) :
  DayFromYear (YearFromTime t) <= Day t < DayFromYear (YearFromTime t + 1).
Proof.
  unfold YearFromTime. set (d := Day t).
  destruct (Z.ltb_spec d (DayFromYear (1970 + 400 * d / 146097))) as [H1|H1].
  - replace (1970 + 400 * d / 146097 - 1 + 1) with (1970 + 400 * d / 146097) by lia.
    split; [|exact H1].
    revert H1. unfold DayFromYear. intros H1. div_lia.
  - destruct (Z.leb_spec (DayFromYear (1970 + 400 * d / 146097 + 1)) d) as [H2|H2].
    + split; [exact H2|].
      revert H1 H2. unfold DayFromYear. intros H1 H2. div_lia.
    + lia.
Qed.

Lemma YearFromTime_spec (t : Z) :
  TimeFromYear (YearFromTime t) <= t /\
  forall y, TimeFromYear y <= t -> y <= YearFromTime t.
Proof.
  pose proof (YearFromTime_days t) as [Hlo Hhi].
  unfold TimeFromYear, Day, msPerDay in *. split.
  - div_lia.
  - intros y Hy.
    destruct (Z_lt_le_dec (YearFromTime t) y) as [Hlt|]; [|assumption].
    pose proof (DayFromYear_mono (YearFromTime t + 1) y ltac:(lia)).
    div_lia.
Qed.
Lemma InLeapYearOf_range (y : Z) : InLeapYearOf y = 0 \/ InLeapYearOf y = 1.
Proof. unfold InLeapYearOf. destruct (DaysInYear y =? 366); auto. Qed.

Lemma DayWithinYear_range (t : Z) : 0 <= DayWithinYear t < 365 + InLeapYear t.
Proof.
  pose proof (YearFromTime_days t) as H.
  rewrite DayFromYear_succ in H.
  unfold DayWithinYear, InLeapYear, InLeapYearOf.
  destruct (DaysInYear_range (YearFromTime t)) as [E|E]; rewrite E in *;
    simpl; lia.
Qed.

Lemma MonthFromTime_range (t : Z) : 0 <= MonthFromTime t <= 11.
Proof.
  unfold MonthFromTime.
  repeat match goal with
         | |- context [?a <? ?b] => destruct (a <? b)
         end; lia.
Qed.

(** The day of the month is a day of that month. *)
Lemma DateFromTime_range (t : Z) : 1 <= DateFromTime t <= 31.
Proof.
  pose proof (DayWithinYear_range t) as Hd.
  destruct (InLeapYearOf_range (YearFromTime t)) as [E|E];
    unfold DateFromTime, MonthFromTime, InLeapYear in *; rewrite E in *;
    repeat match goal with
           | |- context [?a <? ?b] => destruct (Z.ltb_spec a b)
           end; cbn [MonthStart]; lia.
Qed.

(** Year, month and day of a time value name its day: [MakeDay] takes them
    back to it, and a day of the month that is [i] too large to the day [i]
    days later. *)
Lemma MakeDay_components (t i : Z) :
  MakeDay (YearFromTime t) (MonthFromTime t) (DateFromTime t + i) = Day t + i.
Proof.
  pose proof (MonthFromTime_range t) as Hm.
  unfold MakeDay.
  rewrite (Z.div_small (MonthFromTime t) 12), (Z.mod_small (MonthFromTime t) 12),
    Z.add_0_r by lia.
  unfold DateFromTime, DayWithinYear, InLeapYear. lia.
Qed.

(** [MakeDay] is the day of the ECMAScript definition: the day of its
    month and year whose day of the month is [date]. *)
Lemma MakeDay_first (year month : Z) :
  let t := MakeDate (MakeDay year month 1) 0 in
  YearFromTime t = year + month / 12 /\
  MonthFromTime t = month mod 12 /\
  DateFromTime t = 1.
Proof.
  intros t.
  assert (Hday : Day t = MakeDay year month 1).
  { unfold t, MakeDate, Day, msPerDay. rewrite Z.add_0_r. apply Z.div_mul. lia. }
  set (ym := year + month / 12).
  assert (Hmn : 0 <= month mod 12 < 12) by (apply Z.mod_pos_bound; lia).
  assert (Hst : 0 <= MonthStart (month mod 12) (InLeapYearOf ym)
                < 365 + InLeapYearOf ym /\
                DaysInYear ym = 365 + InLeapYearOf ym).
  { unfold InLeapYearOf.
    destruct (DaysInYear_range ym) as [E|E]; rewrite E; simpl;
      (split; [|reflexivity]);
      assert (Hc : month mod 12 = 0 \/ month mod 12 = 1 \/ month mod 12 = 2 \/
                   month mod 12 = 3 \/ month mod 12 = 4 \/ month mod 12 = 5 \/
                   month mod 12 = 6 \/ month mod 12 = 7 \/ month mod 12 = 8 \/
                   month mod 12 = 9 \/ month mod 12 = 10 \/ month mod 12 = 11)
        by lia;
      repeat destruct Hc as [Hc|Hc]; rewrite Hc; simpl; lia. }
  assert (Hy : YearFromTime t = ym).
  { pose proof (YearFromTime_days t) as [Hlo Hhi].
    rewrite Hday in Hlo, Hhi. unfold MakeDay in Hlo, Hhi. fold ym in Hlo, Hhi.
    destruct (Z_lt_le_dec (YearFromTime t) ym) as [Hlt|Hge].
    - pose proof (DayFromYear_mono (YearFromTime t + 1) ym ltac:(lia)). lia.
    - destruct (Z_lt_le_dec ym (YearFromTime t)) as [Hgt|Hle]; [|lia].
      pose proof (DayFromYear_mono (ym + 1) (YearFromTime t) ltac:(lia)).
      rewrite DayFromYear_succ in *. lia. }
  assert (Hw : DayWithinYear t = MonthStart (month mod 12) (InLeapYearOf ym)).
  { unfold DayWithinYear. rewrite Hday, Hy. unfold MakeDay. fold ym. lia. }
  assert (Hm : MonthFromTime t = month mod 12).
  { unfold MonthFromTime, InLeapYear. rewrite Hw, Hy.
    destruct (InLeapYearOf_range ym) as [E|E]; rewrite E;
      assert (Hc : month mod 12 = 0 \/ month mod 12 = 1 \/ month mod 12 = 2 \/
                   month mod 12 = 3 \/ month mod 12 = 4 \/ month mod 12 = 5 \/
                   month mod 12 = 6 \/ month mod 12 = 7 \/ month mod 12 = 8 \/
                   month mod 12 = 9 \/ month mod 12 = 10 \/ month mod 12 = 11)
        by lia;
      repeat destruct Hc as [Hc|Hc]; rewrite Hc; reflexivity. }
  split; [exact Hy|]. split; [exact Hm|].
  unfold DateFromTime, InLeapYear. rewrite Hm, Hw, Hy. lia.
Qed.

End Calendar.

(** ** Strings and markup *)

Lemma append_nil_r (s : string) : (s ++ EmptyString)%string = s.
Proof. induction s as [|c s IH]; simpl; [reflexivity|now rewrite IH]. Qed.

Lemma append_assoc_r (a b c : string) :
  ((a ++ b) ++ c)%string = (a ++ (b ++ c))%string.
Proof. induction a as [|x a IH]; simpl; [reflexivity|now rewrite IH]. Qed.

Lemma join_app (l1 l2 : list string) :
  join (l1 ++ l2) = (join l1 ++ join l2)%string.
Proof.
  induction l1 as [|s l1 IH]; simpl; [reflexivity|].
  now rewrite IH, append_assoc_r.
Qed.

Lemma fill_app (id : string) (t1 t2 : list piece) :
  fill id (t1 ++ t2) = (fill id t1 ++ fill id t2)%string.
Proof. unfold fill. now rewrite map_app, join_app. Qed.

Lemma fill_Q (id : string) (t : list piece) : fill id (Q t) = q (fill id t).
Proof.
  unfold Q, q. rewrite !fill_app. unfold fill at 1 3. simpl. reflexivity.
Qed.

Lemma fill_Lit (id s : string) : fill id [Lit s] = s.
Proof. unfold fill; simpl. apply append_nil_r. Qed.

Lemma fill_Q_Lit (id s : string) : fill id (Q [Lit s]) = q s.
Proof. now rewrite fill_Q, fill_Lit. Qed.

(** Chunk by chunk: a template literal whose chunks are the texts of the
    parts of a template is the text of the whole template. *)
Lemma join_fill_concat (id : string) (chunks : list string) (parts : list (list piece)) :
  Forall2 (fun s t => s = fill id t) chunks parts ->
  join chunks = fill id (List.concat parts).
Proof.
  induction 1 as [|s t chunks parts Hst _ IH]; [reflexivity|].
  cbn [List.concat join fold_right]. fold (join chunks).
  now rewrite fill_app, <- Hst, <- IH.
Qed.

Section IconProperties.
Variable numToString : R -> string.
Variable toString36 : R -> string.

(** [moonSVG] writes the markup of [svgTemplate], its identifier in the
    holes. *)
Lemma moonSVG_template (rnd p : R) (size : option R) :
  moonSVG numToString toString36 rnd p size
  = fill (iconId toString36 rnd) (svgTemplate numToString p size).
Proof.
  unfold moonSVG, svgTemplate. cbv zeta.
  apply join_fill_concat.
  repeat (constructor;
          [first [ symmetry; apply fill_Lit
                 | symmetry; apply fill_Q_Lit
                 | rewrite fill_Q; reflexivity ]|]).
  constructor.
Qed.
End IconProperties.

(** ** The page *)

Lemma Date_ext (d1 d2 : Date) : getTime d1 = getTime d2 -> d1 = d2.
Proof. destruct d1, d2; simpl. now intros ->. Qed.

(** A local midnight moved by [s] milliseconds stays on its day exactly
    when [s] is at least 0 and less than a day. *)
Lemma Day_after_midnight (day s : Z) :
  (Day (MakeDate day 0 + s) = day <-> 0 <= s < msPerDay)%Z /\
  TimeWithinDay (MakeDate day 0 + s) = (s mod msPerDay)%Z.
Proof.
  unfold MakeDate, Day, TimeWithinDay, msPerDay. rewrite Z.add_0_r. split.
  - rewrite Z.add_comm, Z.div_add by lia.
    split; intros H.
    + assert (Hq : (s / 86400000 = 0)%Z) by lia.
      apply Z.div_small_iff in Hq; lia.
    + rewrite Z.div_small by lia. lia.
  - rewrite Z.add_comm. apply Z.mod_add. lia.
Qed.

Section PageProperties.
Variable LocalTZA : Z -> bool -> Z.
Variable numToString : R -> string.
Variable toString36 : R -> string.
Variable toFixed : R -> nat -> string.
Variable toLocaleDateString : Date -> list (string * string) -> string.
Variable toLocaleString : Date -> string.

Local Abbreviation LocalTime := (LocalTime LocalTZA).
Local Abbreviation UTC := (UTC LocalTZA).
Local Abbreviation getFullYear := (getFullYear LocalTZA).
Local Abbreviation getMonth := (getMonth LocalTZA).
Local Abbreviation getDate := (getDate LocalTZA).
Local Abbreviation newDate := (newDate LocalTZA).
Local Abbreviation forecastDate := (forecastDate LocalTZA).
Local Abbreviation moonSVG := (moonSVG numToString toString36).
Local Abbreviation forecastCard :=
  (forecastCard numToString toString36 toFixed toLocaleDateString).
Local Abbreviation renderToday :=
  (renderToday numToString toString36 toFixed toLocaleDateString toLocaleString).
Local Abbreviation render7 :=
  (render7 LocalTZA numToString toString36 toFixed toLocaleDateString).
Local Abbreviation toggleClick :=
  (toggleClick LocalTZA numToString toString36 toFixed toLocaleDateString).
Local Abbreviation refresh :=
  (refresh LocalTZA numToString toString36 toFixed toLocaleDateString
     toLocaleString).
Local Abbreviation handle :=
  (handle LocalTZA numToString toString36 toFixed toLocaleDateString
     toLocaleString).
Local Abbreviation reachable :=
  (reachable LocalTZA numToString toString36 toFixed toLocaleDateString
     toLocaleString).

(** C8: the icon is the same markup for the same phase and size, whatever
    [Math.random()] returns, but for the identifier written in its holes: two
    calls fill one template, each with its own identifier, and give the same
    text when their identifiers are the same. *)
Theorem moonSVG_pure_modulo_id (p : R) (size : option R) :
  exists tpl : list piece,
    forall rnd1 rnd2 : R,
      moonSVG rnd1 p size = fill (iconId toString36 rnd1) tpl /\
      moonSVG rnd2 p size = fill (iconId toString36 rnd2) tpl /\
      (iconId toString36 rnd1 = iconId toString36 rnd2 ->
       moonSVG rnd1 p size = moonSVG rnd2 p size).
Proof.
  exists (svgTemplate numToString p size). intros rnd1 rnd2.
  rewrite !moonSVG_template. split; [reflexivity|]. split; [reflexivity|].
  now intros ->.
Qed.

(** *** The forecast *)

Lemma render7_unfold (base : Date) (rand : nat -> R) (pg : Page) :
  render7 base rand pg =
  set_grid7
    (map (fun i => forecastCard (forecastDate base (Z.of_nat i)) (rand i))
         (seq 1 7)) pg.
Proof. reflexivity. Qed.

Lemma render7_display (base : Date) (rand : nat -> R) (pg : Page) :
  sevenPanel_display (render7 base rand pg) = sevenPanel_display pg.
Proof. reflexivity. Qed.

Lemma render7_text (base : Date) (rand : nat -> R) (pg : Page) :
  toggle7_textContent (render7 base rand pg) = toggle7_textContent pg.
Proof. reflexivity. Qed.

(** The time value of a forecast date: local midnight of the day [i] days
    after the local day of [base], taken to UTC. *)
Lemma forecastDate_time (base : Date) (i : Z) :
  ~ (0 <= getFullYear base <= 99)%Z ->
  getTime (forecastDate base i)
  = UTC (MakeDate (Day (LocalTime (getTime base)) + i) 0).
Proof.
  intros Hy. unfold forecastDate, newDate.
  destruct (Z.leb_spec 0 (getFullYear base)), (Z.leb_spec (getFullYear base) 99);
    cbn [andb]; try lia;
    unfold getFullYear, getMonth, getDate;
    now rewrite MakeDay_components.
Qed.

Lemma forecastDate_same_day (base1 base2 : Date) (i : Z) :
  Day (LocalTime (getTime base1)) = Day (LocalTime (getTime base2)) ->
  forecastDate base1 i = forecastDate base2 i.
Proof.
  intros H.
  assert (Hy : getFullYear base1 = getFullYear base2).
  { unfold getFullYear, YearFromTime. now rewrite H. }
  assert (Hw : DayWithinYear (LocalTime (getTime base1))
               = DayWithinYear (LocalTime (getTime base2))).
  { unfold DayWithinYear. fold (getFullYear base1) (getFullYear base2).
    now rewrite H, Hy. }
  assert (Hl : InLeapYear (LocalTime (getTime base1))
               = InLeapYear (LocalTime (getTime base2))).
  { unfold InLeapYear. fold (getFullYear base1) (getFullYear base2).
    now rewrite Hy. }
  assert (Hm : getMonth base1 = getMonth base2).
  { unfold getMonth, MonthFromTime. now rewrite Hw, Hl. }
  assert (Hd : getDate base1 = getDate base2).
  { unfold getDate, DateFromTime.
    fold (getMonth base1) (getMonth base2). now rewrite Hw, Hl, Hm. }
  unfold forecastDate. now rewrite Hy, Hm, Hd.
Qed.

Lemma MakeDate_midnight (day : Z) :
  Day (MakeDate day 0) = day /\ TimeWithinDay (MakeDate day 0) = 0%Z.
Proof.
  unfold MakeDate, Day, TimeWithinDay, msPerDay. rewrite Z.add_0_r. split.
  - apply Z.div_mul. lia.
  - apply Z.mod_mul. lia.
Qed.

(** The date of a forecast day: local midnight of the day [i] days after
    the local day of [base], taken to UTC. *)
Lemma forecastDate_eq (base : Date) (i : Z) :
  ~ (0 <= getFullYear base <= 99)%Z ->
  forecastDate base i
  = mkDate (UTC (MakeDate (Day (LocalTime (getTime base)) + i) 0)).
Proof. intros Hy. apply Date_ext. now apply forecastDate_time. Qed.

(** The local time of the instant that a local time is taken to. *)
Lemma LocalTime_UTC (x : Z) :
  LocalTime (UTC x) = (x + (LocalTZA (UTC x) true - LocalTZA x false))%Z.
Proof. unfold LocalTime, UTC. lia. Qed.

(** The cards of the grid after [render7], one by one. *)
Lemma render7_nth (base : Date) (rand : nat -> R) (pg : Page) (i : nat) :
  (1 <= i <= 7)%nat ->
  nth_error (grid7_children (render7 base rand pg)) (i - 1)
  = Some (forecastCard (forecastDate base (Z.of_nat i)) (rand i)).
Proof.
  intros Hi. rewrite render7_unfold. cbn [grid7_children set_grid7].
  assert (Hc : (i = 1 \/ i = 2 \/ i = 3 \/ i = 4 \/ i = 5 \/ i = 6 \/ i = 7)%nat)
    by lia.
  repeat destruct Hc as [Hc|Hc]; subst i; reflexivity.
Qed.



(** C10, as amended: two values of [new Date()] with the same local year,
    month and day of the month leave the same grid, at whatever time of that
    day they were taken.  Unless the local year is between 0 and 99, card
    [i] of it is built from the reading of one instant [d]: local
    00:00:00.000 of the day [i] days after the local day of the base date,
    taken to UTC.  The local
    clock at [d] reads that midnight moved by the difference between the zone
    offset at [d] and the offset the midnight was read with: 00:00:00.000 of
    the target day where the two are the same, and in general 00:00:00.000
    exactly when the difference is a whole number of days. *)
Theorem render7_time_of_day (base1 base2 : Date) (rand : nat -> R) (pg : Page) :
  getFullYear base1 = getFullYear base2 ->
  getMonth base1 = getMonth base2 ->
  getDate base1 = getDate base2 ->
  render7 base1 rand pg = render7 base2 rand pg /\
  forall i : nat, (1 <= i <= 7)%nat ->
    ~ (0 <= getFullYear base1 <= 99)%Z ->
    let day := (Day (LocalTime (getTime base1)) + Z.of_nat i)%Z in
    let d := mkDate (UTC (MakeDate day 0)) in
    let shift :=
      (LocalTZA (UTC (MakeDate day 0)) true - LocalTZA (MakeDate day 0) false)%Z in
    nth_error (grid7_children (render7 base2 rand pg)) (i - 1)
    = Some
        {| className := "card";
           innerHTML :=
             join [ nl;
                    "      "; moonSVG (rand i) (phase (moonPhase d)) (Some 120); nl;
                    "      <div class="; q "label"; ">";
                      phaseName (phase (moonPhase d)); "</div>"; nl;
                    "      <div class="; q "date"; ">";
                      toLocaleDateString d
                        [("weekday", "short"); ("month", "short");
                         ("day", "numeric")];
                      "</div>"; nl;
                    "      <div class="; q "illum"; ">";
                      toFixed (illum (moonPhase d) * 100) 1 ++ "%";
                      " lit</div>"; nl;
                    "    " ] |}%string /\
    LocalTime (getTime d) = (MakeDate day 0 + shift)%Z /\
    (shift = 0%Z ->
     Day (LocalTime (getTime d)) = day /\
     TimeWithinDay (LocalTime (getTime d)) = 0%Z) /\
    (TimeWithinDay (LocalTime (getTime d)) = 0%Z <-> (shift mod msPerDay = 0)%Z).
Proof.
  intros Hy Hm Hd.
  assert (Hf : forall i, forecastDate base2 i = forecastDate base1 i).
  { intros i. unfold forecastDate. now rewrite Hy, Hm, Hd. }
  split.
  - rewrite !render7_unfold. f_equal.
    apply map_ext. intros i. now rewrite Hf.
  - intros i Hi Hq day d shift.
    assert (He : forecastDate base2 (Z.of_nat i) = d)
      by (rewrite Hf; apply forecastDate_eq; exact Hq).
    assert (Hl : LocalTime (getTime d) = (MakeDate day 0 + shift)%Z)
      by (apply LocalTime_UTC).
    destruct (Day_after_midnight day shift) as [Hday Htime].
    split.
    { rewrite (render7_nth base2 rand pg i Hi), He. reflexivity. }
    split; [exact Hl|]. rewrite Hl. split.
    + intros Hs. split.
      * apply Hday. rewrite Hs. unfold msPerDay. lia.
      * rewrite Htime, Hs. reflexivity.
    + rewrite Htime. reflexivity.
Qed.

(** *** The toggle *)

Lemma toggleClick_display (base : Date) (rand : nat -> R) (pg : Page) :
  sevenPanel_display (toggleClick base rand pg)
  = if String.eqb (sevenPanel_display pg) "none" then "block"%string
    else "none"%string.
Proof.
  unfold toggleClick.
  destruct (String.eqb (sevenPanel_display pg) "none"); reflexivity.
Qed.

Lemma toggleClick_text (base : Date) (rand : nat -> R) (pg : Page) :
  toggle7_textContent (toggleClick base rand pg)
  = if String.eqb (sevenPanel_display pg) "none"
    then "▼ Hide Next 7 Days"%string else "▶ Next 7 Days"%string.
Proof.
  unfold toggleClick.
  destruct (String.eqb (sevenPanel_display pg) "none"); reflexivity.
Qed.

(** One click leaves the panel in one of its two states, whatever the page
    was. *)
Lemma toggleClick_state (base : Date) (rand : nat -> R) (pg : Page) :
  let pg' := toggleClick base rand pg in
  collapsed (sevenPanel_display pg') (toggle7_textContent pg') \/
  expanded (sevenPanel_display pg') (toggle7_textContent pg').
Proof.
  cbv zeta. rewrite toggleClick_display, toggleClick_text.
  destruct (String.eqb (sevenPanel_display pg) "none");
    [right|left]; split; reflexivity.
Qed.

Lemma handle_state (e : Event) (pg : Page) :
  collapsed (sevenPanel_display pg) (toggle7_textContent pg) \/
  expanded (sevenPanel_display pg) (toggle7_textContent pg) ->
  collapsed (sevenPanel_display (handle e pg)) (toggle7_textContent (handle e pg)) \/
  expanded (sevenPanel_display (handle e pg)) (toggle7_textContent (handle e pg)).
Proof.
  intros H. destruct e as [base rand|now rnd base rand].
  - apply toggleClick_state.
  - unfold handle, refresh.
    destruct (negb _); [rewrite render7_display, render7_text|]; exact H.
Qed.

Lemma reachable_state (doc pg : Page) :
  collapsed (sevenPanel_display doc) (toggle7_textContent doc) \/
  expanded (sevenPanel_display doc) (toggle7_textContent doc) ->
  reachable doc pg ->
  collapsed (sevenPanel_display pg) (toggle7_textContent pg) \/
  expanded (sevenPanel_display pg) (toggle7_textContent pg).
Proof.
  intros Hdoc Hr. induction Hr as [now rnd|pg e _ IH].
  - exact Hdoc.
  - now apply handle_state.
Qed.

(** C7: in a document whose panel and toggle start in one of the two
    states (hidden by its inline style with the caption to expand, or shown
    as a block with the caption to hide), every page the script brings about
    gets back its [display] and its caption after two clicks; one click takes
    each state to the other. *)
Theorem toggleClick_twice (doc pg : Page)
    (base1 base2 : Date) (rand1 rand2 : nat -> R) :
  collapsed (sevenPanel_display doc) (toggle7_textContent doc) \/
  expanded (sevenPanel_display doc) (toggle7_textContent doc) ->
  reachable doc pg ->
  let pg1 := toggleClick base1 rand1 pg in
  let pg2 := toggleClick base2 rand2 pg1 in
  sevenPanel_display pg2 = sevenPanel_display pg /\
  toggle7_textContent pg2 = toggle7_textContent pg /\
  (collapsed (sevenPanel_display pg) (toggle7_textContent pg) ->
   expanded (sevenPanel_display pg1) (toggle7_textContent pg1)) /\
  (expanded (sevenPanel_display pg) (toggle7_textContent pg) ->
   collapsed (sevenPanel_display pg1) (toggle7_textContent pg1)).
Proof.
  intros Hdoc Hr pg1 pg2.
  pose proof (reachable_state doc pg Hdoc Hr) as Hpg.
  unfold pg2, pg1.
  rewrite !toggleClick_display, !toggleClick_text.
  rewrite !toggleClick_display.
  destruct Hpg as [[Hd Ht]|[Hd Ht]]; rewrite Hd, Ht; cbn;
    (split; [reflexivity|]); (split; [reflexivity|]);
    split; intros [E _]; first [discriminate E | split; reflexivity].
Qed.

(** Without that start the caption need not come back: with no inline
    [display] (the empty string) the first click hides the panel and the
    second shows it as a block. *)
Lemma toggleClick_twice_empty_display (pg : Page)
    (base1 base2 : Date) (rand1 rand2 : nat -> R) :
  sevenPanel_display pg = EmptyString ->
  sevenPanel_display (toggleClick base1 rand1 pg) = "none"%string /\
  sevenPanel_display (toggleClick base2 rand2 (toggleClick base1 rand1 pg))
  = "block"%string.
Proof.
  intros H. rewrite !toggleClick_display, H. split; reflexivity.
Qed.

End PageProperties.

(** ** The page on sample hosts *)

(** Two icons at full moon whose random numbers give the same identifier
    are the same text. *)
Lemma moonSVG_pure_modulo_id_witness :
  iconId twoTexts36 0.1 = "m4fzyo82mvyr"%string /\
  moonSVG noNumber twoTexts36 0.1 0.5 (Some 160)
  = moonSVG noNumber twoTexts36 0.2 0.5 (Some 160).
Proof.
  assert (E : forall r, r < 0.5 -> iconId twoTexts36 r = "m4fzyo82mvyr"%string).
  { intros r Hr. unfold iconId, twoTexts36, ltb.
    destruct (Rlt_dec r 0.5); [reflexivity|contradiction]. }
  split; [apply E; lra|].
  destruct (moonSVG_pure_modulo_id noNumber twoTexts36 0.5 (Some 160)) as [tpl H].
  apply (H 0.1 0.2). rewrite !E by lra. reflexivity.
Defined.


(** In a zone at a fixed offset every local midnight exists: the forecast
    dates are the following days of the local calendar. *)
Lemma forecastDate_fixedZone (offset : Z) (base : Date) (i : Z) :
  let tz := fixedZone offset in
  ~ (0 <= getFullYear tz base <= 99)%Z ->
  Day (LocalTime tz (getTime (forecastDate tz base i)))
  = (Day (LocalTime tz (getTime base)) + i)%Z /\
  TimeWithinDay (LocalTime tz (getTime (forecastDate tz base i))) = 0%Z.
Proof.
  intros tz Hy. rewrite (forecastDate_time tz base i Hy).
  replace (LocalTime tz (UTC tz (MakeDate (Day (LocalTime tz (getTime base)) + i) 0)))
    with (MakeDate (Day (LocalTime tz (getTime base)) + i) 0)
    by (unfold LocalTime, UTC, tz, fixedZone; lia).
  apply MakeDate_midnight.
Qed.

(** Across the change to summer time the forecast dates are local
    midnights, 23 hours apart, on the 30th and the 31st: calendar days, not
    spans of 24 hours. *)
Example forecastDate_spring_forward :
  let tz := springForward2025 in
  let base := mkDate 1743246000000 in
  (getFullYear tz base, getMonth tz base, getDate tz base) = (2025, 2, 29)%Z /\
  let d1 := forecastDate tz base 1 in
  let d2 := forecastDate tz base 2 in
  (getMonth tz d1, getDate tz d1, TimeWithinDay (LocalTime tz (getTime d1)))
  = (2, 30, 0)%Z /\
  (getMonth tz d2, getDate tz d2, TimeWithinDay (LocalTime tz (getTime d2)))
  = (2, 31, 0)%Z /\
  (getTime d2 - getTime d1 = 23 * msPerHour)%Z.
Proof. vm_compute. repeat split. Qed.

(** A quarter past one and eleven at night of 2025-06-15, in a zone one
    hour ahead of UTC, give the same forecast, and the local clock reads
    00:00:00.000 at the instant of its first card. *)
Lemma render7_time_of_day_witness :
  let tz := fixedZone 3600000 in
  let base1 := mkDate 1749946500000 in
  let base2 := mkDate 1750024800000 in
  let day := (Day (LocalTime tz (getTime base1)) + 1)%Z in
  getTime base1 <> getTime base2 /\
  render7 tz noNumber noNumber noFixed noLocaleDate base1 (fun _ => 0) collapsedDoc
  = render7 tz noNumber noNumber noFixed noLocaleDate base2 (fun _ => 0) collapsedDoc /\
  TimeWithinDay (LocalTime tz (UTC tz (MakeDate day 0))) = 0%Z.
Proof.
  intros tz base1 base2 day. split; [discriminate|].
  assert (Hy : ~ (0 <= getFullYear tz base1 <= 99)%Z).
  { assert (E : getFullYear tz base1 = 2025%Z) by (vm_compute; reflexivity).
    rewrite E. lia. }
  destruct (render7_time_of_day tz noNumber noNumber noFixed noLocaleDate
              base1 base2 (fun _ => 0) collapsedDoc) as [H1 H2];
    try (vm_compute; reflexivity).
  split; [exact H1|].
  destruct (H2 1%nat ltac:(lia) Hy) as (_ & _ & H3 & _).
  apply H3. unfold tz, fixedZone. lia.
Defined.

(** C10 as it is stated fails where the clocks skip a midnight: at noon of
    2024-04-25 in Cairo the first card, for the 26th, is built from the
    reading of an instant at which the local clock reads 01:00:00.000. *)
Lemma render7_time_of_day_counterexample :
  let tz := cairo2024 in
  let base := mkDate 1714039200000 in
  let d := forecastDate tz base 1 in
  (getFullYear tz base, getMonth tz base, getDate tz base) = (2024, 3, 25)%Z /\
  d = newDate tz 2024 3 26 /\
  nth_error
    (grid7_children
       (render7 tz noNumber noNumber noFixed noLocaleDate base (fun _ => 0)
          collapsedDoc)) 0
  = Some (forecastCard noNumber noNumber noFixed noLocaleDate d 0) /\
  (getFullYear tz d, getMonth tz d, getDate tz d) = (2024, 3, 26)%Z /\
  TimeWithinDay (LocalTime tz (getTime d)) = (1 * msPerHour)%Z /\
  TimeWithinDay (LocalTime tz (getTime d)) <> 0%Z.
Proof.
  intros tz base d.
  split; [vm_compute; reflexivity|]. split; [reflexivity|].
  split; [exact (render7_nth tz noNumber noNumber noFixed noLocaleDate
                   base (fun _ => 0) collapsedDoc 1 ltac:(lia))|].
  split; [vm_compute; reflexivity|].
  assert (E : TimeWithinDay (LocalTime tz (getTime d)) = (1 * msPerHour)%Z)
    by (vm_compute; reflexivity).
  split; [exact E|]. rewrite E. discriminate.
Defined.

(** Two clicks on the page as first rendered in [collapsedDoc]. *)
Lemma toggleClick_twice_witness :
  let tz := fixedZone 0 in
  let click := toggleClick tz noNumber noNumber noFixed noLocaleDate in
  let pg := renderToday noNumber noNumber noFixed noLocaleDate noDate
              refNewMoon 0 collapsedDoc in
  sevenPanel_display (click aFullMoon (fun _ => 0) pg) = "block"%string /\
  sevenPanel_display (click aFullMoon (fun _ => 0) (click refNewMoon (fun _ => 0) pg))
  = "none"%string /\
  toggle7_textContent (click aFullMoon (fun _ => 0) (click refNewMoon (fun _ => 0) pg))
  = "▶ Next 7 Days"%string.
Proof.
  intros tz click pg.
  destruct (toggleClick_twice tz noNumber noNumber noFixed noLocaleDate noDate
              collapsedDoc pg refNewMoon aFullMoon (fun _ => 0) (fun _ => 0))
    as (H1 & H2 & _).
  - left. split; reflexivity.
  - apply reach_load.
  - split; [reflexivity|]. split; [exact H1|exact H2].
Defined.

(** ** The phase model in binary64, evaluated *)

(** At the bounds of the table, as the script reads them. *)
Example phaseName64_bounds :
  map phaseName64 [0; 0.03; 0.22; 0.28; 0.47; 0.53; 0.72; 0.78; 0.97; 1]%float
  = [ "New Moon"; "Waxing Crescent"; "First Quarter"; "Waxing Gibbous";
      "Full Moon"; "Waning Gibbous"; "Last Quarter"; "Waning Crescent";
      "Waning Crescent"; "New Moon" ]%string.
Proof. vm_compute. reflexivity. Qed.

(** At the reference new moon the phase is 0, one synodic month later it is
    0.9999999996, and at the Unix epoch 0.7714. *)
Example moonPhase64_samples :
  fst (moonPhase64 refNewMoon) = 0%float /\
  PrimFloat.ltb 0.9999999996 (fst (moonPhase64 (mkDate 949720082876))) = true /\
  PrimFloat.ltb (fst (moonPhase64 (mkDate 949720082876))) 1 = true /\
  PrimFloat.ltb 0.7713 (fst (moonPhase64 (mkDate 0))) = true /\
  PrimFloat.ltb (fst (moonPhase64 (mkDate 0))) 0.7714 = true /\
  phaseName64 (fst (moonPhase64 refNewMoon)) = "New Moon"%string.
Proof. vm_compute. repeat split. Qed.

(** Where binary64 leaves the real numbers: a tiny negative number has
    fractional part 1, of which the fractional part is 0.  No time value
    gives such a cycle count, but equalities between phases hold of the
    real model up to rounding only. *)
Example frac64_tiny_negative :
  frac64 (-1e-20) = 1%float /\ frac64 (frac64 (-1e-20)) = 0%float.
Proof. vm_compute. split; reflexivity. Qed.

(** In the two seconds around the reference new moon, millisecond by
    millisecond, the phase stays in [[0, 1)]. *)
Example moonPhase64_near_new_moon :
  forallb
    (fun i =>
       let p := fst (moonPhase64 (mkDate (947168639000 + Z.of_nat i))) in
       PrimFloat.leb 0 p && PrimFloat.ltb p 1)
    (seq 0 2001) = true.
Proof. vm_compute. reflexivity. Qed.

(** * Further properties of the script *)

(** ** Math utilities *)

Lemma Rmin_cases (x y : R) : (x <= y /\ Rmin x y = x) \/ (y < x /\ Rmin x y = y).
Proof. unfold Rmin. destruct (Rle_dec x y); lra. Qed.

Lemma Rmax_cases (x y : R) : (x <= y /\ Rmax x y = y) \/ (y < x /\ Rmax x y = x).
Proof. unfold Rmax. destruct (Rle_dec x y); lra. Qed.

Ltac min_max_cases :=
  repeat match goal with
         | |- context [Rmax ?x ?y] =>
             let E := fresh "E" in
             destruct (Rmax_cases x y) as [[? E]|[? E]]; rewrite E in *
         | |- context [Rmin ?x ?y] =>
             let E := fresh "E" in
             destruct (Rmin_cases x y) as [[? E]|[? E]]; rewrite E in *
         end.

(** X1: with its bounds in order, [clamp] returns a value between them, and
    returns its argument exactly when the argument is already between
    them. *)
Theorem clamp_between (v a b : R) :
  a <= b ->
  a <= clamp v a b <= b /\ (clamp v a b = v <-> a <= v <= b).
Proof.
  intros Hab. unfold clamp. min_max_cases; repeat split; intros; lra.
Qed.

Lemma clamp_between_witness :
  1 <= clamp 7 1 5 <= 5 /\ (clamp 7 1 5 = 7 <-> 1 <= 7 <= 5).
Proof. apply (clamp_between 7 1 5). lra. Defined.

(** X2: [clamp] applied twice is [clamp] applied once; with its bounds the
    wrong way round it returns the second bound [b], whatever the value. *)
Theorem clamp_idempotent_reversed (v a b : R) :
  clamp (clamp v a b) a b = clamp v a b /\
  (b < a -> clamp v a b = b).
Proof.
  unfold clamp. split.
  - destruct (Rmax_cases v a) as [[? E1]|[? E1]]; rewrite E1;
      destruct (Rmin_cases (Rmax v a) b) as [[? E2]|[? E2]];
      rewrite E1 in *; rewrite E2; min_max_cases; lra.
  - intros Hba. min_max_cases; lra.
Qed.

Lemma clamp_idempotent_reversed_witness : clamp 3 5 1 = 1.
Proof. apply (clamp_idempotent_reversed 3 5 1). lra. Defined.

(** ** The lit fraction *)

Lemma illum_cos (d : Date) :
  illum (moonPhase d) = 0.5 * (1 - cos (2 * (PI * phase (moonPhase d)))).
Proof.
  change (illum (moonPhase d)) with (0.5 * (1 - cos (TAU * phase (moonPhase d)))).
  unfold TAU. do 3 f_equal. lra.
Qed.

Lemma illum_sin (d : Date) :
  illum (moonPhase d)
  = sin (PI * phase (moonPhase d)) * sin (PI * phase (moonPhase d)).
Proof. rewrite illum_cos, cos_2a_sin. lra. Qed.

Lemma cos_mirror (x : R) : cos (2 * (PI * (1 - x))) = cos (2 * (PI * x)).
Proof.
  replace (2 * (PI * (1 - x))) with (- (2 * (PI * x)) + 2 * INR 1 * PI)
    by (simpl; lra).
  now rewrite cos_period, cos_neg.
Qed.

Lemma phase_dayAfterNewMoon :
  phase (moonPhase dayAfterNewMoon) = 1 / synodic.
Proof.
  rewrite (phase_at dayAfterNewMoon 0 (1 / synodic)); [lra| |].
  - unfold toJulian, dayAfterNewMoon, synodic; simpl. lra.
  - unfold synodic. lra.
Qed.

Lemma phase_dayBeforeNewMoon :
  phase (moonPhase dayBeforeNewMoon) = 1 - 1 / synodic.
Proof.
  rewrite (phase_at dayBeforeNewMoon (-1) (- (1 / synodic))); [lra| |].
  - unfold toJulian, dayBeforeNewMoon, synodic; simpl. lra.
  - unfold synodic. lra.
Qed.



(** X8: while the moon waxes (phases up to 0.5) a later phase is lit at
    least as much, and while it wanes (phases from 0.5) at most as much. *)
Theorem illum_waxes_then_wanes (d1 d2 : Date) :
  phase (moonPhase d1) <= phase (moonPhase d2) ->
  (phase (moonPhase d2) <= 0.5 -> illum (moonPhase d1) <= illum (moonPhase d2)) /\
  (0.5 <= phase (moonPhase d1) -> illum (moonPhase d2) <= illum (moonPhase d1)).
Proof.
  intros Hle.
  pose proof (phase_range d1) as [H1 H1']. pose proof (phase_range d2) as [H2 H2'].
  pose proof PI_RGT_0 as Hpi.
  rewrite !illum_cos. split; intros H.
  - assert (cos (2 * (PI * phase (moonPhase d2)))
            <= cos (2 * (PI * phase (moonPhase d1)))); [|lra].
    apply cos_decr_1; nra.
  - assert (cos (2 * (PI * phase (moonPhase d1)))
            <= cos (2 * (PI * phase (moonPhase d2)))); [|lra].
    apply cos_incr_1; nra.
Qed.

Lemma illum_waxes_then_wanes_witness :
  illum (moonPhase refNewMoon) <= illum (moonPhase dayAfterNewMoon) /\
  illum (moonPhase dayBeforeNewMoon) <= illum (moonPhase aFullMoon).
Proof.
  split.
  - apply (illum_waxes_then_wanes refNewMoon dayAfterNewMoon);
      rewrite ?phase_refNewMoon, phase_dayAfterNewMoon; unfold synodic; lra.
  - apply (illum_waxes_then_wanes aFullMoon dayBeforeNewMoon);
      rewrite ?phase_aFullMoon, ?phase_dayBeforeNewMoon; unfold synodic; lra.
Defined.

(** ** Names and lit fractions *)

(** The bucket of a phase, with its name. *)
Lemma phaseName_cases (p : R) :
  ((p < 0.03 \/ p > 0.97) /\ phaseName p = "New Moon"%string) \/
  (0.03 <= p < 0.22 /\ phaseName p = "Waxing Crescent"%string) \/
  (0.22 <= p < 0.28 /\ phaseName p = "First Quarter"%string) \/
  (0.28 <= p < 0.47 /\ phaseName p = "Waxing Gibbous"%string) \/
  (0.47 <= p < 0.53 /\ phaseName p = "Full Moon"%string) \/
  (0.53 <= p < 0.72 /\ phaseName p = "Waning Gibbous"%string) \/
  (0.72 <= p < 0.78 /\ phaseName p = "Last Quarter"%string) \/
  (0.78 <= p <= 0.97 /\ phaseName p = "Waning Crescent"%string).
Proof.
  unfold phaseName, gtb, ltb.
  repeat match goal with
         | |- context [Rlt_dec ?a ?b] => destruct (Rlt_dec a b); simpl
         end;
    repeat (first [left; split; [lra|reflexivity] | right]);
    split; [lra|reflexivity].
Qed.

Ltac name_cases p H B :=
  destruct (phaseName_cases p)
    as [[B E]|[[B E]|[[B E]|[[B E]|[[B E]|[[B E]|[[B E]|[B E]]]]]]]];
  rewrite E in H; try discriminate H; clear E.

Lemma Rabs_sin_le (x : R) : - Rabs x <= sin x <= Rabs x.
Proof.
  destruct (Rtotal_order x 0) as [Hneg|[->|Hpos]].
  - pose proof (sin_lt_x (- x) ltac:(lra)) as H. rewrite sin_neg in H.
    rewrite (Rabs_left x) by lra.
    assert (Hx : - x <= 1 \/ 1 < - x) by lra.
    pose proof (SIN_bound x) as [Hlo Hhi]. split; [lra|].
    destruct Hx as [Hx|Hx]; [|lra].
    assert (0 <= sin (- x)) by (apply sin_ge_0; pose proof PI2_3_2; lra).
    rewrite sin_neg in *. lra.
  - rewrite sin_0, Rabs_R0. lra.
  - pose proof (sin_lt_x x Hpos) as H.
    rewrite (Rabs_pos_eq x) by lra.
    assert (Hx : x <= 1 \/ 1 < x) by lra.
    pose proof (SIN_bound x) as [Hlo Hhi]. split; [|lra].
    destruct Hx as [Hx|Hx]; [|lra].
    assert (0 <= sin x) by (apply sin_ge_0; pose proof PI2_3_2; lra).
    lra.
Qed.

Lemma sin_sq_le (x : R) : sin x * sin x <= x * x.
Proof.
  pose proof (Rabs_sin_le x) as H.
  destruct (Rtotal_order x 0) as [Hneg|[->|Hpos]].
  - rewrite (Rabs_left x) in H by lra. nra.
  - rewrite sin_0. lra.
  - rewrite (Rabs_pos_eq x) in H by lra. nra.
Qed.

Lemma illum_mirror_phase (d : Date) :
  illum (moonPhase d)
  = sin (PI * (1 - phase (moonPhase d))) * sin (PI * (1 - phase (moonPhase d))).
Proof. rewrite illum_cos, <- cos_mirror, cos_2a_sin. lra. Qed.

(** Around full moon: the lit fraction half a cycle away. *)
Lemma illum_opposite (d : Date) :
  illum (moonPhase d)
  = 1 - sin (PI * (phase (moonPhase d) - 0.5)) * sin (PI * (phase (moonPhase d) - 0.5)).
Proof.
  rewrite illum_cos.
  replace (2 * (PI * phase (moonPhase d)))
    with (2 * (PI * (phase (moonPhase d) - 0.5)) + PI) by lra.
  rewrite neg_cos, cos_2a_sin. lra.
Qed.

(** Around the quarters: the lit fraction a quarter of a cycle away. *)
Lemma illum_quarter (d : Date) :
  illum (moonPhase d)
  = 0.5 * (1 + sin (2 * (PI * (phase (moonPhase d) - 0.25)))).
Proof.
  rewrite illum_cos.
  replace (2 * (PI * phase (moonPhase d)))
    with (PI / 2 - - (2 * (PI * (phase (moonPhase d) - 0.25)))) by lra.
  rewrite cos_shift, sin_neg. lra.
Qed.

Lemma illum_three_quarters (d : Date) :
  illum (moonPhase d)
  = 0.5 * (1 - sin (2 * (PI * (phase (moonPhase d) - 0.75)))).
Proof.
  rewrite illum_cos.
  replace (2 * (PI * phase (moonPhase d)))
    with (PI / 2 - - (2 * (PI * (phase (moonPhase d) - 0.75))) + PI) by lra.
  rewrite neg_cos, cos_shift, sin_neg. lra.
Qed.

Ltac pi_bounds :=
  pose proof PI_4; pose proof PI2_3_2; pose proof PI_RGT_0.

(** X10: a reading named New Moon is lit less than 1.5 %, one named Full
    Moon more than 98.5 %. *)
Theorem name_new_full_illum (d : Date) :
  (phaseName (phase (moonPhase d)) = "New Moon"%string ->
   illum (moonPhase d) < 0.015) /\
  (phaseName (phase (moonPhase d)) = "Full Moon"%string ->
   0.985 < illum (moonPhase d)).
Proof.
  pose proof (phase_range d) as [H0 H1]. pi_bounds.
  set (p := phase (moonPhase d)) in *.
  split; intros Hn; name_cases p Hn B.
  - destruct B as [Hlo|Hhi].
    + rewrite illum_sin. fold p. pose proof (sin_sq_le (PI * p)).
      assert (0 <= PI * p <= 0.12) by nra. nra.
    + rewrite illum_mirror_phase. fold p. pose proof (sin_sq_le (PI * (1 - p))).
      assert (0 <= PI * (1 - p) <= 0.12) by nra. nra.
  - rewrite illum_opposite. fold p. pose proof (sin_sq_le (PI * (p - 0.5))).
    assert (-0.12 <= PI * (p - 0.5) <= 0.12) by nra. nra.
Qed.

Lemma name_new_full_illum_witness :
  illum (moonPhase refNewMoon) < 0.015 /\ 0.985 < illum (moonPhase aFullMoon).
Proof.
  split.
  - apply (name_new_full_illum refNewMoon). rewrite phase_refNewMoon.
    apply phaseName_low. lra.
  - apply (name_new_full_illum aFullMoon). rewrite phase_aFullMoon.
    unfold phaseName, gtb, ltb.
    repeat match goal with
           | |- context [Rlt_dec ?a ?b] => destruct (Rlt_dec a b); simpl; try lra
           end; reflexivity.
Defined.

(** The name of a phase whose bucket is known. *)
Ltac name_of p :=
  let B := fresh "B" in
  let E := fresh "E" in
  destruct (phaseName_cases p)
    as [[B E]|[[B E]|[[B E]|[[B E]|[[B E]|[[B E]|[[B E]|[B E]]]]]]]];
  first [exact E | exfalso; lra].

Lemma phase_fiveDaysAfter : phase (moonPhase fiveDaysAfter) = 5 / synodic.
Proof.
  rewrite (phase_at fiveDaysAfter 0 (5 / synodic)); [lra| |].
  - unfold toJulian, fiveDaysAfter, synodic; simpl. lra.
  - unfold synodic. lra.
Qed.

Lemma phase_tenDaysAfter : phase (moonPhase tenDaysAfter) = 10 / synodic.
Proof.
  rewrite (phase_at tenDaysAfter 0 (10 / synodic)); [lra| |].
  - unfold toJulian, tenDaysAfter, synodic; simpl. lra.
  - unfold synodic. lra.
Qed.

Lemma phase_aFirstQuarter : phase (moonPhase aFirstQuarter) = 7.4 / synodic.
Proof.
  rewrite (phase_at aFirstQuarter 0 (7.4 / synodic)); [lra| |].
  - unfold toJulian, aFirstQuarter, synodic; simpl. lra.
  - unfold synodic. lra.
Qed.

(** X11: a reading named a crescent is less than half lit, one named
    gibbous more than half lit. *)
Theorem name_crescent_gibbous_illum (d : Date) :
  let n := phaseName (phase (moonPhase d)) in
  (n = "Waxing Crescent"%string \/ n = "Waning Crescent"%string ->
   illum (moonPhase d) < 0.5) /\
  (n = "Waxing Gibbous"%string \/ n = "Waning Gibbous"%string ->
   0.5 < illum (moonPhase d)).
Proof.
  intros n. unfold n. clear n.
  pose proof (phase_range d) as [H0 H1]. pi_bounds.
  set (p := phase (moonPhase d)) in *.
  split; intros [Hn|Hn]; name_cases p Hn B; rewrite illum_cos; fold p.
  - assert (0 < cos (2 * (PI * p))); [apply cos_gt_0; nra|lra].
  - rewrite <- cos_mirror.
    assert (0 < cos (2 * (PI * (1 - p)))); [apply cos_gt_0; nra|lra].
  - assert (cos (2 * (PI * p)) < 0); [apply cos_lt_0; nra|lra].
  - assert (cos (2 * (PI * p)) < 0); [apply cos_lt_0; nra|lra].
Qed.

Lemma name_crescent_gibbous_illum_witness :
  illum (moonPhase fiveDaysAfter) < 0.5 /\ 0.5 < illum (moonPhase tenDaysAfter).
Proof.
  split.
  - apply (name_crescent_gibbous_illum fiveDaysAfter). left.
    rewrite phase_fiveDaysAfter. unfold synodic.
    name_of (5 / 29.530588853).
  - apply (name_crescent_gibbous_illum tenDaysAfter). left.
    rewrite phase_tenDaysAfter. unfold synodic.
    name_of (10 / 29.530588853).
Defined.

(** X12: a reading named First Quarter or Last Quarter is lit between 38 %
    and 62 %. *)
Theorem name_quarter_illum (d : Date) :
  let n := phaseName (phase (moonPhase d)) in
  n = "First Quarter"%string \/ n = "Last Quarter"%string ->
  0.38 <= illum (moonPhase d) <= 0.62.
Proof.
  intros n. unfold n. clear n.
  pose proof (phase_range d) as [H0 H1]. pi_bounds.
  set (p := phase (moonPhase d)) in *.
  intros [Hn|Hn]; name_cases p Hn B.
  - rewrite illum_quarter. fold p.
    pose proof (Rabs_sin_le (2 * (PI * (p - 0.25)))) as Hs.
    assert (Rabs (2 * (PI * (p - 0.25))) <= 0.24) by (apply Rabs_le; nra).
    lra.
  - rewrite illum_three_quarters. fold p.
    pose proof (Rabs_sin_le (2 * (PI * (p - 0.75)))) as Hs.
    assert (Rabs (2 * (PI * (p - 0.75))) <= 0.24) by (apply Rabs_le; nra).
    lra.
Qed.

Lemma name_quarter_illum_witness :
  0.38 <= illum (moonPhase aFirstQuarter) <= 0.62.
Proof.
  apply (name_quarter_illum aFirstQuarter). left.
  rewrite phase_aFirstQuarter. unfold synodic.
  name_of (7.4 / 29.530588853).
Defined.

(** ** Rendering *)

Section RenderingProperties.
Variable LocalTZA : Z -> bool -> Z.
Variable numToString : R -> string.
Variable toString36 : R -> string.
Variable toFixed : R -> nat -> string.
Variable toLocaleDateString : Date -> list (string * string) -> string.
Variable toLocaleString : Date -> string.

Local Abbreviation forecastDate := (forecastDate LocalTZA).
Local Abbreviation forecastCard :=
  (forecastCard numToString toString36 toFixed toLocaleDateString).
Local Abbreviation renderToday :=
  (renderToday numToString toString36 toFixed toLocaleDateString toLocaleString).
Local Abbreviation render7 :=
  (render7 LocalTZA numToString toString36 toFixed toLocaleDateString).
Local Abbreviation toggleClick :=
  (toggleClick LocalTZA numToString toString36 toFixed toLocaleDateString).
Local Abbreviation refresh :=
  (refresh LocalTZA numToString toString36 toFixed toLocaleDateString
     toLocaleString).
Local Abbreviation handle :=
  (handle LocalTZA numToString toString36 toFixed toLocaleDateString
     toLocaleString).
Local Abbreviation reachable :=
  (reachable LocalTZA numToString toString36 toFixed toLocaleDateString
     toLocaleString).

Lemma render7_grid_length (base : Date) (rand : nat -> R) (pg : Page) :
  List.length (grid7_children (render7 base rand pg)) = 7%nat.
Proof. reflexivity. Qed.

(** X13: [renderToday] and [render7] write different parts of the page, so
    they can run in either order; and each of them run again overwrites
    what its earlier run wrote, so refreshes never pile up cards. *)
Theorem render_order_and_overwrite
    (now now' base base' : Date) (rnd rnd' : R) (rand rand' : nat -> R)
    (pg : Page) :
  renderToday now rnd (render7 base rand pg)
  = render7 base rand (renderToday now rnd pg) /\
  render7 base rand (render7 base' rand' pg) = render7 base rand pg /\
  renderToday now rnd (renderToday now' rnd' pg) = renderToday now rnd pg /\
  todayFields (render7 base rand pg) = todayFields pg /\
  grid7_children (renderToday now rnd pg) = grid7_children pg.
Proof.
  rewrite !render7_unfold. unfold renderToday, set_grid7, todayFields.
  cbn [now_textContent todayMoon_innerHTML todayLabel_textContent
       todayDate_textContent todayIllum_textContent todayAge_textContent
       grid7_children sevenPanel_display toggle7_textContent].
  split; [reflexivity|]. split; [reflexivity|]. split; [reflexivity|].
  split; reflexivity.
Qed.

(** X14: a click never touches what [renderToday] wrote.  A click on a
    hidden panel (inline [display] equal to none) fills the grid with 7 new
    cards for [base]; a click on any other panel hides it and leaves the
    cards in the grid as they are. *)
Theorem toggleClick_grid (base : Date) (rand : nat -> R) (pg : Page) :
  todayFields (toggleClick base rand pg) = todayFields pg /\
  (sevenPanel_display pg = "none"%string ->
   grid7_children (toggleClick base rand pg)
   = map (fun i => forecastCard (forecastDate base (Z.of_nat i)) (rand i))
         (seq 1 7)) /\
  (sevenPanel_display pg <> "none"%string ->
   grid7_children (toggleClick base rand pg) = grid7_children pg /\
   sevenPanel_display (toggleClick base rand pg) = "none"%string).
Proof.
  unfold toggleClick.
  destruct (String.eqb_spec (sevenPanel_display pg) "none") as [E|E].
  - split; [reflexivity|]. split; [reflexivity|]. intros H. contradiction.
  - split; [reflexivity|]. split; [intros H; contradiction|].
    intros _. split; reflexivity.
Qed.

(** X15: the minute refresh rewrites today's fields as [renderToday] does,
    never changes the panel's [display] nor the caption of the toggle, and
    rebuilds the 7 cards only when the panel is not hidden: a hidden panel
    keeps the cards it had. *)
Theorem refresh_effect
    (now : Date) (rnd : R) (base : Date) (rand : nat -> R) (pg : Page) :
  let pg' := refresh now rnd base rand pg in
  todayFields pg' = todayFields (renderToday now rnd pg) /\
  sevenPanel_display pg' = sevenPanel_display pg /\
  toggle7_textContent pg' = toggle7_textContent pg /\
  (sevenPanel_display pg = "none"%string ->
   grid7_children pg' = grid7_children pg) /\
  (sevenPanel_display pg <> "none"%string ->
   grid7_children pg'
   = map (fun i => forecastCard (forecastDate base (Z.of_nat i)) (rand i))
         (seq 1 7)).
Proof.
  intros pg'. unfold pg', refresh.
  change (sevenPanel_display (renderToday now rnd pg))
    with (sevenPanel_display pg).
  destruct (String.eqb_spec (sevenPanel_display pg) "none") as [E|E]; cbn [negb].
  - split; [reflexivity|]. split; [reflexivity|]. split; [reflexivity|].
    split; [reflexivity|]. intros H. contradiction.
  - split; [reflexivity|]. split; [reflexivity|]. split; [reflexivity|].
    split; [intros H; contradiction|]. reflexivity.
Qed.

(** X16: a click on any page at all leaves the panel in one of its two
    states, so a third click undoes the second: three clicks show and caption
    the panel as one click does.  A panel with no inline [display] (the
    empty string) counts as shown: the first click hides it. *)
Theorem toggleClick_any_page
    (b1 b2 b3 : Date) (r1 r2 r3 : nat -> R) (pg : Page) :
  let pg1 := toggleClick b1 r1 pg in
  let pg3 := toggleClick b3 r3 (toggleClick b2 r2 pg1) in
  (collapsed (sevenPanel_display pg1) (toggle7_textContent pg1) \/
   expanded (sevenPanel_display pg1) (toggle7_textContent pg1)) /\
  sevenPanel_display pg3 = sevenPanel_display pg1 /\
  toggle7_textContent pg3 = toggle7_textContent pg1 /\
  (sevenPanel_display pg = EmptyString ->
   collapsed (sevenPanel_display pg1) (toggle7_textContent pg1)).
Proof.
  intros pg1 pg3. unfold pg3, pg1.
  rewrite !toggleClick_display, !toggleClick_text, !toggleClick_display.
  destruct (String.eqb (sevenPanel_display pg) "none") eqn:E; cbn.
  - split; [right; split; reflexivity|]. split; [reflexivity|].
    split; [reflexivity|]. intros H. rewrite H in E. discriminate E.
  - split; [left; split; reflexivity|]. split; [reflexivity|].
    split; [reflexivity|]. intros _. split; reflexivity.
Qed.

Lemma handle_gridInvariant (doc pg : Page) (e : Event) :
  gridInvariant doc pg -> gridInvariant doc (handle e pg).
Proof.
  intros H. destruct e as [base rand|now rnd base rand].
  - destruct H as [[[Hd Ht] _]|[[Hd Ht] Hg]].
    + right. unfold handle, toggleClick. rewrite Hd. cbn [String.eqb].
      split; [split; reflexivity|reflexivity].
    + left. unfold handle, toggleClick. rewrite Hd.
      split; [split; reflexivity|]. right. exact Hg.
  - unfold handle, refresh.
    change (sevenPanel_display (renderToday now rnd pg))
      with (sevenPanel_display pg).
    destruct H as [[[Hd Ht] Hg]|[[Hd Ht] Hg]]; rewrite Hd.
    + left. split; [split; assumption|exact Hg].
    + right. split; [split; assumption|reflexivity].
Qed.

(** X17: in a document that starts collapsed, whatever clicks and refreshes
    follow, the grid holds either the children the document came with or
    exactly 7 cards, and exactly 7 whenever the panel is shown as a block. *)
Theorem reachable_grid (doc pg : Page) :
  collapsed (sevenPanel_display doc) (toggle7_textContent doc) ->
  reachable doc pg ->
  (grid7_children pg = grid7_children doc \/
   List.length (grid7_children pg) = 7%nat) /\
  (sevenPanel_display pg = "block"%string ->
   List.length (grid7_children pg) = 7%nat).
Proof.
  intros Hdoc Hr.
  assert (Hinv : gridInvariant doc pg).
  { induction Hr as [now rnd|pg e _ IH].
    - left. split; [exact Hdoc|left; reflexivity].
    - now apply handle_gridInvariant. }
  destruct Hinv as [[[Hd Ht] Hg]|[[Hd Ht] Hg]].
  - split; [exact Hg|]. rewrite Hd. discriminate.
  - split; [right; exact Hg|]. intros _. exact Hg.
Qed.

End RenderingProperties.

(** A click on [collapsedDoc] fills the grid; a click on [unstyledDoc]
    hides the panel and leaves its empty grid. *)
Lemma toggleClick_grid_witness :
  let click := toggleClick (fixedZone 0) noNumber noNumber noFixed noLocaleDate in
  List.length (grid7_children (click refNewMoon (fun _ => 0) collapsedDoc)) = 7%nat /\
  grid7_children (click refNewMoon (fun _ => 0) unstyledDoc) = [] /\
  sevenPanel_display (click refNewMoon (fun _ => 0) unstyledDoc) = "none"%string.
Proof.
  intros click. split.
  - destruct (toggleClick_grid (fixedZone 0) noNumber noNumber noFixed
                noLocaleDate refNewMoon (fun _ => 0) collapsedDoc)
      as (_ & H & _).
    unfold click. rewrite (H eq_refl). reflexivity.
  - destruct (toggleClick_grid (fixedZone 0) noNumber noNumber noFixed
                noLocaleDate refNewMoon (fun _ => 0) unstyledDoc)
      as (_ & _ & H).
    apply H. discriminate.
Defined.

(** A refresh of [collapsedDoc] keeps its empty grid; a refresh of
    [unstyledDoc], whose panel is not hidden, builds the 7 cards. *)
Lemma refresh_effect_witness :
  let refresh :=
    refresh (fixedZone 0) noNumber noNumber noFixed noLocaleDate noDate in
  grid7_children (refresh refNewMoon 0 refNewMoon (fun _ => 0) collapsedDoc) = [] /\
  List.length
    (grid7_children (refresh refNewMoon 0 refNewMoon (fun _ => 0) unstyledDoc))
  = 7%nat.
Proof.
  intros refresh. split.
  - destruct (refresh_effect (fixedZone 0) noNumber noNumber noFixed
                noLocaleDate noDate refNewMoon 0 refNewMoon (fun _ => 0)
                collapsedDoc) as (_ & _ & _ & H & _).
    apply H. reflexivity.
  - destruct (refresh_effect (fixedZone 0) noNumber noNumber noFixed
                noLocaleDate noDate refNewMoon 0 refNewMoon (fun _ => 0)
                unstyledDoc) as (_ & _ & _ & _ & H).
    unfold refresh. rewrite H by discriminate. reflexivity.
Defined.

(** The first click on [unstyledDoc] collapses the panel. *)
Lemma toggleClick_any_page_witness :
  let pg1 := toggleClick (fixedZone 0) noNumber noNumber noFixed noLocaleDate
               refNewMoon (fun _ => 0) unstyledDoc in
  collapsed (sevenPanel_display pg1) (toggle7_textContent pg1).
Proof.
  intros pg1.
  apply (toggleClick_any_page (fixedZone 0) noNumber noNumber noFixed
           noLocaleDate refNewMoon refNewMoon refNewMoon
           (fun _ => 0) (fun _ => 0) (fun _ => 0) unstyledDoc).
  reflexivity.
Defined.

(** After the first rendering of [collapsedDoc], a refresh and a click:
    the panel is shown and holds 7 cards. *)
Lemma reachable_grid_witness :
  let tz := fixedZone 0 in
  let pg :=
    handle tz noNumber noNumber noFixed noLocaleDate noDate
      (Click aFullMoon (fun _ => 0))
      (handle tz noNumber noNumber noFixed noLocaleDate noDate
         (Refresh refNewMoon 0 refNewMoon (fun _ => 0))
         (renderToday noNumber noNumber noFixed noLocaleDate noDate
            refNewMoon 0 collapsedDoc)) in
  sevenPanel_display pg = "block"%string /\
  List.length (grid7_children pg) = 7%nat.
Proof.
  intros tz pg. split; [reflexivity|].
  apply (reachable_grid tz noNumber noNumber noFixed noLocaleDate noDate
           collapsedDoc pg).
  - split; reflexivity.
  - unfold pg. apply reach_event, reach_event, reach_load.
  - reflexivity.
Defined.

(** ** The forecast in a zone at a fixed offset *)

Lemma forecastDate_fixed_time (offset : Z) (base : Date) (i : Z) :
  let tz := fixedZone offset in
  ~ (0 <= getFullYear tz base <= 99)%Z ->
  getTime (forecastDate tz base i)
  = ((Day (getTime base + offset) + i) * msPerDay - offset)%Z.
Proof.
  intros tz Hy. rewrite (forecastDate_time tz base i Hy).
  unfold UTC, LocalTime, MakeDate, tz, fixedZone. lia.
Qed.

(** X18: in a zone at a fixed offset (the local year not between 0 and
    99) the forecast starts after the moment it is made and at most 24
    hours after it, and its dates follow each other at 24 hours. *)
Theorem forecast_starts_tomorrow (offset : Z) (base : Date) (i : Z) :
  let tz := fixedZone offset in
  ~ (0 <= getFullYear tz base <= 99)%Z ->
  (getTime base < getTime (forecastDate tz base 1)
   <= getTime base + msPerDay)%Z /\
  getTime (forecastDate tz base (i + 1))
  = (getTime (forecastDate tz base i) + msPerDay)%Z.
Proof.
  intros tz Hy. rewrite !(forecastDate_fixed_time offset base _ Hy).
  unfold Day, msPerDay. split; [|lia].
  pose proof (Z.div_mod (getTime base + offset) 86400000 ltac:(lia)).
  pose proof (Z.mod_pos_bound (getTime base + offset) 86400000 ltac:(lia)).
  lia.
Qed.

Lemma forecast_starts_tomorrow_witness :
  let tz := fixedZone 3600000 in
  let base := mkDate 1767139200000 in
  (getTime base < getTime (forecastDate tz base 1) <= getTime base + msPerDay)%Z.
Proof.
  intros tz base.
  apply (forecast_starts_tomorrow 3600000 base 0).
  assert (E : getFullYear tz base = 2025%Z) by (vm_compute; reflexivity).
  fold tz. rewrite E. lia.
Defined.

(** X20: in such a zone a forecast made 24 hours later is the same
    forecast moved on by one card: its card [i] is for the date of card
    [i + 1] of the earlier one. *)
Theorem forecast_next_day (offset : Z) (base : Date) (i : Z) :
  let tz := fixedZone offset in
  let later := mkDate (getTime base + msPerDay) in
  ~ (0 <= getFullYear tz base <= 99)%Z ->
  ~ (0 <= getFullYear tz later <= 99)%Z ->
  forecastDate tz later i = forecastDate tz base (i + 1).
Proof.
  intros tz later Hy Hy'. apply Date_ext. subst tz.
  rewrite (forecastDate_fixed_time offset later i Hy'),
    (forecastDate_fixed_time offset base (i + 1) Hy).
  unfold later, Day, msPerDay; cbn [getTime].
  replace (getTime base + 86400000 + offset)%Z
    with (getTime base + offset + 1 * 86400000)%Z by lia.
  rewrite Z.div_add by lia. lia.
Qed.

Lemma forecast_next_day_witness :
  let tz := fixedZone 3600000 in
  forecastDate tz (mkDate (1767139200000 + msPerDay)) 1
  = forecastDate tz (mkDate 1767139200000) 2.
Proof.
  intros tz.
  apply (forecast_next_day 3600000 (mkDate 1767139200000) 1).
  - assert (E : getFullYear tz (mkDate 1767139200000) = 2025%Z)
      by (vm_compute; reflexivity).
    fold tz. rewrite E. lia.
  - assert (E : getFullYear tz (mkDate (getTime (mkDate 1767139200000) + msPerDay))
                = 2026%Z) by (vm_compute; reflexivity).
    fold tz. rewrite E. lia.
Defined.

(** ** The identifier of an icon *)

Lemma slice_short (n : nat) (s : string) :
  (String.length s <= n)%nat -> slice n s = EmptyString.
Proof.
  revert s. induction n as [|n IH]; intros [|c s] H; simpl in *;
    try reflexivity; try lia.
  apply IH. lia.
Qed.

Lemma slice_length (n : nat) (s : string) :
  String.length (slice n s) = (String.length s - n)%nat.
Proof.
  revert s. induction n as [|n IH]; intros [|c s]; simpl;
    try reflexivity; try lia.
  apply IH.
Qed.

(** X21: the identifier is the letter m followed by the base 36 text
    without its first two characters; a text of at most two characters, as
    the text 0 of the random number 0, leaves the bare identifier m, the
    same for every icon drawn so. *)
Theorem iconId_short (toString36 : R -> string) (rnd : R) :
  String.length (iconId toString36 rnd)
  = S (String.length (toString36 rnd) - 2) /\
  ((String.length (toString36 rnd) <= 2)%nat ->
   iconId toString36 rnd = "m"%string).
Proof.
  unfold iconId. split.
  - rewrite <- (slice_length 2 (toString36 rnd)). reflexivity.
  - intros H. now rewrite (slice_short 2 _ H).
Qed.

Lemma iconId_short_witness :
  iconId zeroText36 0 = "m"%string /\ iconId zeroText36 0 = iconId zeroText36 0.5.
Proof.
  split.
  - apply (iconId_short zeroText36 0). simpl. lia.
  - reflexivity.
Defined.

(** ** The order of the names *)

(** X22: up to phase 0.97 the names follow the cycle: a phase that is not
    smaller never has an earlier name. *)
Theorem phaseName_order (p1 p2 : R) :
  0 <= p1 -> p1 <= p2 -> p2 <= 0.97 ->
  (nameIndex (phaseName p1) <= nameIndex (phaseName p2))%nat.
Proof.
  intros H0 H12 H2.
  destruct (phaseName_cases p1)
    as [[B1 E1]|[[B1 E1]|[[B1 E1]|[[B1 E1]|[[B1 E1]|[[B1 E1]|[[B1 E1]|[B1 E1]]]]]]]];
  destruct (phaseName_cases p2)
    as [[B2 E2]|[[B2 E2]|[[B2 E2]|[[B2 E2]|[[B2 E2]|[[B2 E2]|[[B2 E2]|[B2 E2]]]]]]]];
  rewrite E1, E2; try (exfalso; lra); vm_compute; lia.
Qed.

Lemma phaseName_order_witness :
  (nameIndex (phaseName 0.25) <= nameIndex (phaseName 0.5))%nat.
Proof. apply (phaseName_order 0.25 0.5); lra. Defined.
